(** * Workflow permission tooling: formatting analyzer and permissions verifier

    A shallow embedding of [check_formatting.py] and
    [verify_all_workflow_permissions.py].

    Conventions of the embedding.
    - Python [str] values are Rocq strings.  A character stands for the code
      point of the same number, so the alphabet is U+0000..U+00FF; the
      whitespace and lower-casing tables below are Python's, restricted to
      that range.
    - [f.readlines()] is a [list string]; each element keeps its line
      terminator, as in Python.  A failed [open]/read is [None].
    - Line numbers are [Z], because the scripts use [-1] as a sentinel and
      index lists with it.
    - [print] output is not part of the model, except where it can raise. *)

From Stdlib Require Import ZArith List String Ascii Bool Lia.
Import ListNotations.

#[local] Set Warnings "-register-all".

Open Scope string_scope.
Open Scope Z_scope.

(** ** Python string primitives *)

Module PyStr.

(** [str.isspace] on one character. *)
Definition isspace (c : ascii) : bool :=
  let n := N_of_ascii c in
  (((9 <=? n) && (n <=? 13)) || ((28 <=? n) && (n <=? 32))
   || (n =? 133) || (n =? 160))%N.

Fixpoint lstrip (s : string) : string :=
  match s with
  | EmptyString => EmptyString
  | String c s' => if isspace c then lstrip s' else s
  end.

Fixpoint rstrip (s : string) : string :=
  match s with
  | EmptyString => EmptyString
  | String c s' =>
      match rstrip s' with
      | EmptyString => if isspace c then EmptyString else String c EmptyString
      | r => String c r
      end
  end.

(** [s.strip()] *)
Definition strip (s : string) : string := rstrip (lstrip s).

(** [s.startswith(p)] *)
Definition startswith (s p : string) : bool := String.prefix p s.

(** Truth value of a string: [bool(s)]. *)
Definition nonempty (s : string) : bool :=
  match s with EmptyString => false | String _ _ => true end.

(** [sub in s] *)
Fixpoint contains (sub s : string) : bool :=
  String.prefix sub s
  || match s with
     | EmptyString => false
     | String _ s' => contains sub s'
     end.

Definition lower_char (c : ascii) : ascii :=
  let n := N_of_ascii c in
  if (((65 <=? n) && (n <=? 90))
      || ((192 <=? n) && (n <=? 222) && negb (n =? 215)))%N
  then ascii_of_N (n + 32) else c.

(** [s.lower()] *)
Fixpoint lower (s : string) : string :=
  match s with
  | EmptyString => EmptyString
  | String c s' => String (lower_char c) (lower s')
  end.

(** [''.join(parts)] *)
Definition join (parts : list string) : string :=
  fold_right String.append EmptyString parts.

(** The line feed, and a line of text with its terminator. *)
Definition LF : string := String (ascii_of_N 10) EmptyString.
Definition line (s : string) : string := s ++ LF.

(** [xs[k]] for a Python list: negative indices count from the end, and an
    index out of range raises [IndexError] ([None]). *)
Definition index {A} (xs : list A) (k : Z) : option A :=
  let n := Z.of_nat (List.length xs) in
  if (0 <=? k) && (k <? n) then nth_error xs (Z.to_nat k)
  else if (- n <=? k) && (k <? 0) then nth_error xs (Z.to_nat (n + k))
  else None.

End PyStr.

(** ** check_formatting.py *)

Module Formatting.
Import PyStr.

(** The four locals of the scan loop of [analyze_yaml_formatting]. *)
Record scan_state : Type := mk_scan {
  on_block_end : Z;
  in_on_block : bool;
  next_block_line : Z;
  on_line : Z
}.

Definition scan_init : scan_state := mk_scan (-1) false (-1) (-1).

(** Guard of the first [if] of the loop body. *)
Definition is_on_line (l : string) : bool :=
  ((strip l =? "on:")%string || startswith (strip l) "on: ")
  && negb (startswith l " ").

(** A non-blank line without leading space: the start of a root-level
    block. *)
Definition is_root_level (l : string) : bool :=
  nonempty (strip l) && negb (startswith l " ").

(** Non-blank and indented: content of the block being scanned. *)
Definition is_indented_content (l : string) : bool :=
  nonempty (strip l) && startswith l " ".

(** The inner [for j in range(i + 1, len(lines))] of the single-line
    branch; [nbl] is [next_block_line] on entry. *)
Fixpoint find_next_root (j : Z) (rest : list string) (nbl : Z) : Z :=
  match rest with
  | [] => nbl
  | l :: rest' =>
      if is_root_level l then j else find_next_root (j + 1) rest' nbl
  end.

(** The [for i, line in enumerate(lines)] loop, from line [i] on. *)
Fixpoint scan (i : Z) (rest : list string) (st : scan_state) : scan_state :=
  match rest with
  | [] => st
  | l :: rest' =>
      if is_on_line l then
        if (strip l =? "on:")%string then
          (* multiline block: continue *)
          scan (i + 1) rest'
            (mk_scan (on_block_end st) true (next_block_line st) i)
        else
          (* single-line block: look for the next block, break *)
          mk_scan i (in_on_block st)
            (find_next_root (i + 1) rest' (next_block_line st)) i
      else if in_on_block st then
        if is_indented_content l then
          scan (i + 1) rest'
            (mk_scan i (in_on_block st) (next_block_line st) (on_line st))
        else if is_root_level l then
          (* break *)
          mk_scan (on_block_end st) (in_on_block st) i (on_line st)
        else scan (i + 1) rest' st
      else scan (i + 1) rest' st
  end.

Definition scan_lines (lines : list string) : scan_state :=
  scan 0 lines scan_init.

Inductive rule : Type :=
| RuleA   (* no blank line: insert the block unpadded *)
| RuleB.  (* blank separator: insert the block padded with blank lines *)

(** What a call of [analyze_yaml_formatting] does, read off its prints. *)
Inductive report : Type :=
| ReadError                       (* "Error reading file" *)
| StructureNotFound               (* "Could not find complete 'on:' block structure" *)
| IndexError                      (* [lines[next_block_line]] out of range *)
| Verdict (block_end next_block : Z) (next_text : string) (r : rule).

Definition has_blank_line (lines : list string) (block_end : Z) : bool :=
  (block_end + 1 <? Z.of_nat (List.length lines))
  && match index lines (block_end + 1) with
     | Some l => (strip l =? EmptyString)%string
     | None => false
     end.

Definition analyze_yaml_formatting (file : option (list string)) : report :=
  match file with
  | None => ReadError
  | Some lines =>
      let st := scan_lines lines in
      if on_block_end st =? -1 then StructureNotFound
      else
        let blank := has_blank_line lines (on_block_end st) in
        match index lines (next_block_line st) with
        | None => IndexError
        | Some nl =>
            Verdict (on_block_end st) (next_block_line st) (strip nl)
              (if blank then RuleB else RuleA)
        end
  end.

Definition verdict_of (r : report) : option rule :=
  match r with
  | Verdict _ _ _ v => Some v
  | _ => None
  end.

(** The search loop of [verify_root_permissions]: first line that is not
    indented and whose trimmed text starts with [permissions:]. *)
Definition is_permissions_line (l : string) : bool :=
  startswith (strip l) "permissions:" && negb (startswith l " ").

Fixpoint find_permissions_line (i : Z) (rest : list string) : Z :=
  match rest with
  | [] => -1
  | l :: rest' =>
      if is_permissions_line l then i else find_permissions_line (i + 1) rest'
  end.

(** Lines 130-138: is there one more entry right after [contents: read]? *)
Definition additional_permission (lines : list string) (next_line_idx : Z)
  : bool :=
  (next_line_idx <? Z.of_nat (List.length lines))
  && match index lines next_line_idx with
     | Some l =>
         negb (strip l =? EmptyString)%string && startswith l "  "
     | None => false
     end.

(** [verify_root_permissions]; [None] as a result is an uncaught
    [IndexError]. *)
Definition verify_root_permissions (file : option (list string))
  : option bool :=
  match file with
  | None => Some false
  | Some lines =>
      let permissions_line := find_permissions_line 0 lines in
      if permissions_line =? -1 then Some false
      else
        match index lines permissions_line with
        | None => None
        | Some pl =>
            let perm_line := strip pl in
            if (perm_line =? "permissions: read-all")%string then Some true
            else if (perm_line =? "permissions:")%string then
              if permissions_line + 1 >=? Z.of_nat (List.length lines)
              then Some false
              else
                match index lines (permissions_line + 1) with
                | None => None
                | Some contents_line =>
                    if (strip contents_line =? "contents: read")%string
                       && startswith contents_line "  "
                    then
                      if additional_permission lines (permissions_line + 2)
                      then Some false
                      else Some true
                    else Some false
                end
            else Some false
        end
  end.

End Formatting.

(** ** verify_all_workflow_permissions.py *)

Module Verifier.
Import PyStr.

(** What [yaml.safe_load] can produce.  A [dict] is kept as its items in
    insertion order, which is what [list(d.items())] and iteration see;
    the keys of a well-formed dict are pairwise distinct. *)
Inductive value : Type :=
| VNone
| VBool (b : bool)
| VInt (n : Z)
| VFloat (bits : Z)            (* IEEE-754 pattern; never inspected here *)
| VStr (s : string)
| VBytes (s : string)
| VDate (ordinal : Z)
| VDatetime (micros : Z)
| VList (xs : list value)
| VSet (xs : list value)
| VDict (items : list (value * value)).

Definition dict : Type := list (value * value).

(** [v == s] for a [str] literal [s]: only an equal [str] compares equal. *)
Definition eq_str (v : value) (s : string) : bool :=
  match v with
  | VStr t => (t =? s)%string
  | _ => false
  end.

(** [d.get(k)] for a [str] key; [None] stands for a missing key. *)
Fixpoint dict_get (d : dict) (k : string) : option value :=
  match d with
  | [] => None
  | (k', v) :: d' => if eq_str k' k then Some v else dict_get d' k
  end.

(** [k in d] *)
Definition dict_has (d : dict) (k : string) : bool :=
  match dict_get d k with Some _ => true | None => false end.

Definition len {A} (xs : list A) : Z := Z.of_nat (List.length xs).

(** [str(type(v))] *)
Definition type_repr (v : value) : string :=
  match v with
  | VNone => "<class 'NoneType'>"
  | VBool _ => "<class 'bool'>"
  | VInt _ => "<class 'int'>"
  | VFloat _ => "<class 'float'>"
  | VStr _ => "<class 'str'>"
  | VBytes _ => "<class 'bytes'>"
  | VDate _ => "<class 'datetime.date'>"
  | VDatetime _ => "<class 'datetime.datetime'>"
  | VList _ => "<class 'list'>"
  | VSet _ => "<class 'set'>"
  | VDict _ => "<class 'dict'>"
  end.

(** Outcome of [yaml.safe_load] on an opened file, as [load_yaml_file]
    distinguishes them; the payload of a failure is [str(e)]. *)
Inductive load_result : Type :=
| Loaded (content : value)
| YAMLError (e : string)
| OtherError (e : string).

(** The files the verifier can see. *)
Record host : Type := mk_host {
  read_lines : string -> option (list string);
  safe_load : string -> load_result
}.

Definition auto_gen_indicators : list string :=
  [ "autogenerated";
    "auto-generated";
    "automatically generated";
    "cargo-dist";
    "DO NOT EDIT" ].

(** The body of the [try] of [is_auto_generated_file] on the lines read. *)
Definition has_auto_gen_indicator (lines : list string) : bool :=
  let first_lines := join (firstn 10 lines) in
  existsb (fun indicator => contains (lower indicator) (lower first_lines))
          auto_gen_indicators.

Definition is_auto_generated_file (h : host) (file_path : string) : bool :=
  match read_lines h file_path with
  | Some lines => has_auto_gen_indicator lines
  | None => false
  end.

Definition load_yaml_file (h : host) (file_path : string)
  : option value * option string :=
  match safe_load h file_path with
  | Loaded content => (Some content, None)
  | YAMLError e => (None, Some ("YAML parsing error: " ++ e))
  | OtherError e => (None, Some ("File reading error: " ++ e))
  end.

Section Classification.

(** [str(v)] as an f-string renders a parsed value. *)
Variable py_format : value -> string.

Definition check_root_permissions (h : host) (workflow_data : dict)
    (file_path : string) : bool * list string * list string :=
  match dict_get workflow_data "permissions" with
  | None => (false, ["Missing root-level 'permissions' block"], [])
  | Some VNone => (false, ["Root-level 'permissions' block is empty"], [])
  | Some (VStr permissions) =>
      if (permissions =? "read-all")%string then (true, [], [])
      else if (permissions =? "write-all")%string then
        (true, [],
         ["Root-level 'write-all' permission is overly permissive - consider using 'read-all' or 'contents: read'"])
      else
        (false,
         ["Invalid root-level permissions string: '" ++ permissions ++ "'"],
         [])
  | Some (VDict permissions) =>
      if (len permissions =? 1)
         && match dict_get permissions "contents" with
            | Some v => eq_str v "read"
            | None => false
            end
      then (true, [], [])
      else if len permissions =? 0 then
        (false, ["Root-level permissions block is empty"], [])
      else
        let perm_items := permissions in
        if (len perm_items >? 1)
           || ((len perm_items =? 1)
               && match index perm_items 0 with
                  | Some (k, v) => negb (eq_str k "contents" && eq_str v "read")
                  | None => false
                  end)
        then
          if is_auto_generated_file h file_path then
            (true, [],
             ["Auto-generated file with root-level permissions: "
                ++ py_format (VDict permissions);
              "Consider configuring the generation tool for minimal permissions if possible"])
          else
            (true, [],
             ["Root-level permissions should be limited to 'contents: read' or 'read-all'. Found: "
                ++ py_format (VDict permissions);
              "Consider moving specific permissions to job level if needed"])
        else (true, [], [])
  | Some permissions =>
      (false,
       ["Invalid root-level permissions format: " ++ type_repr permissions],
       [])
  end.

(** One entry of the job analysis. *)
Record job_info : Type := mk_job {
  has_permissions : bool;
  permissions : value;
  is_reusable_workflow : bool;
  has_steps : bool
}.

Definition analyze_job (job_data : dict) : job_info :=
  mk_job (dict_has job_data "permissions")
         (match dict_get job_data "permissions" with
          | Some v => v
          | None => VNone
          end)
         (dict_has job_data "uses" && negb (dict_has job_data "steps"))
         (dict_has job_data "steps").

Fixpoint analyze_jobs (jobs : dict) : list (value * job_info) :=
  match jobs with
  | [] => []
  | (job_name, VDict job_data) :: jobs' =>
      (job_name, analyze_job job_data) :: analyze_jobs jobs'
  | _ :: jobs' => analyze_jobs jobs'
  end.

Definition analyze_job_permissions (workflow_data : dict)
  : list (value * job_info) :=
  match dict_get workflow_data "jobs" with
  | Some (VDict jobs) => analyze_jobs jobs
  | _ => []
  end.

Record result : Type := mk_result {
  file_path : string;
  is_valid : bool;
  errors : list string;
  warnings : list string;
  job_analysis : list (value * job_info);
  is_auto_generated : bool
}.

Definition verify_workflow_file (h : host) (path : string) : result :=
  let auto := is_auto_generated_file h path in
  match load_yaml_file h path with
  | (_, Some load_error) => mk_result path false [load_error] [] [] auto
  | (Some (VDict workflow_data), None) =>
      let '(valid, errs, warns) :=
        check_root_permissions h workflow_data path in
      mk_result path valid errs warns
        (analyze_job_permissions workflow_data) auto
  | (_, None) =>
      mk_result path false
        ["Workflow file is not a valid YAML dictionary"] [] [] auto
  end.

(** The counters kept on the verifier object. *)
Record stats : Type := mk_stats {
  total_files : Z;
  files_with_errors : Z;
  files_with_warnings : Z;
  files_passed : Z
}.

Definition stats_init : stats := mk_stats 0 0 0 0.

Inductive exn : Type :=
| TypeError        (* [', '.join] over a job name that is not a [str] *)
| SystemExit (code : Z).

Definition is_str (v : value) : bool :=
  match v with VStr _ => true | _ => false end.

Definition count_result (r : result) (s : stats) : stats :=
  if is_valid r then
    if negb (len (warnings r) =? 0)
    then mk_stats (total_files s) (files_with_errors s)
                  (files_with_warnings s + 1) (files_passed s)
    else mk_stats (total_files s) (files_with_errors s)
                  (files_with_warnings s) (files_passed s + 1)
  else mk_stats (total_files s) (files_with_errors s + 1)
                (files_with_warnings s) (files_passed s).

(** [print_file_result]: the counters are updated first; the printing,
    unless suppressed, joins the names of the jobs that declare
    permissions, which raises on a name that is not a [str]. *)
Definition print_file_result (suppress_output : bool) (r : result)
    (s : stats) : stats + exn :=
  let s' := count_result r s in
  if suppress_output then inl s'
  else
    let jobs_with_permissions :=
      map fst (filter (fun na => has_permissions (snd na)) (job_analysis r)) in
    if forallb is_str jobs_with_permissions then inl s' else inr TypeError.

(** The [for file_path in workflow_files] loop. *)
Fixpoint verify_loop (h : host) (suppress_output : bool)
    (workflow_files : list string) (s : stats) (results : list result)
  : (stats * list result) + exn :=
  match workflow_files with
  | [] => inl (s, results)
  | path :: rest =>
      let s1 := mk_stats (total_files s + 1) (files_with_errors s)
                         (files_with_warnings s) (files_passed s) in
      let r := verify_workflow_file h path in
      match print_file_result suppress_output r s1 with
      | inl s2 => verify_loop h suppress_output rest s2 (results ++ [r])
      | inr e => inr e
      end
  end.

Inductive summary : Type :=
| NoWorkflowsFound
| Summary (s : stats) (results : list result).

(** [verify_all_workflows] on the sorted glob result [workflow_files]. *)
Definition verify_all_workflows (h : host) (suppress_output : bool)
    (workflow_files : list string) : summary + exn :=
  if len workflow_files =? 0 then inl NoWorkflowsFound
  else
    match verify_loop h suppress_output workflow_files stats_init [] with
    | inr e => inr e
    | inl (s, results) =>
        if files_with_errors s >? 0 then inr (SystemExit 1)
        else inl (Summary s results)
    end.

(** [main] from line 331 on, as the exit status of the process: the
    command line has been parsed ([argparse] exits by itself on a bad
    command line or on [--help], before any of this runs).
    [directory_exists] is [os.path.exists(args.directory)], [quiet] the
    [--quiet] flag. *)
Definition main (h : host) (directory_exists quiet : bool)
    (workflow_files : list string) : Z :=
  if negb directory_exists then 1
  else
    match verify_all_workflows h quiet workflow_files with
    | inl _ => 0
    | inr (SystemExit code) => code
    | inr TypeError => 1     (* except Exception: sys.exit(1) *)
    end.

End Classification.

End Verifier.

(** * Auxiliary definitions for the statements *)

Import PyStr Formatting Verifier.

(** [m] occurs in [text] up to letter case. *)
Definition occurs_ci (m text : string) : Prop :=
  exists a s b, text = (a ++ s ++ b)%string /\ lower s = lower m.

(** The two warnings of a mapping that is broader than [contents: read],
    for a hand-written and for a generated file. *)
Definition breadth_warnings (py_format : value -> string) (m : dict)
  : list string :=
  [ ("Root-level permissions should be limited to 'contents: read' or 'read-all'. Found: "
       ++ py_format (VDict m))%string;
    "Consider moving specific permissions to job level if needed" ].

Definition generated_warnings (py_format : value -> string) (m : dict)
  : list string :=
  [ ("Auto-generated file with root-level permissions: "
       ++ py_format (VDict m))%string;
    "Consider configuring the generation tool for minimal permissions if possible" ].

(** The canonical minimal mapping. *)
Definition contents_read : dict := [(VStr "contents", VStr "read")].

(** Shapes that are neither null, nor a string, nor a mapping. *)
Definition other_shape (v : value) : bool :=
  match v with
  | VNone | VStr _ | VDict _ => false
  | _ => true
  end.

(** Loop invariant on [on_line]: nothing is recorded before a trigger line
    has been seen, and [on_line] then points at a trigger line. *)
Definition trigger_inv (seen : list string) (st : scan_state) : Prop :=
  (on_line st = -1 /\ in_on_block st = false /\ on_block_end st = -1)
  \/ (0 <= on_line st
      /\ exists t, nth_error seen (Z.to_nat (on_line st)) = Some t
                   /\ is_on_line t = true).

(** A sample host.  For the heuristic: a file that cannot be read, one with
    an indicator in mixed case on line 2, and one whose only indicator is on
    line 11.  For the parser: a file that does not parse, one with a broad
    root mapping, one whose only job is named by a number, and otherwise a
    document with [permissions: read-all]. *)
Definition sample_host : host :=
  mk_host
    (fun path =>
       if (path =? "mixed.yml")%string then
         Some [line "name: release"; line "# This file is AutoGenerated"]
       else if (path =? "late.yml")%string then
         Some [line "name: ci"; line "on: push"; line "permissions:";
               line "  contents: read"; line "jobs:"; line "  build:";
               line "    runs-on: ubuntu-latest"; line "    steps:";
               line "      - run: make"; line "      - run: make test";
               line "# DO NOT EDIT"]
       else if (path =? "plain.yml")%string then Some [line "name: ci"]
       else None)
    (fun path =>
       if (path =? "broken.yml")%string then YAMLError "mapping values are not allowed here"
       else if (path =? "wide.yml")%string then
         Loaded (VDict [(VStr "permissions",
                         VDict [(VStr "contents", VStr "read");
                                (VStr "issues", VStr "write")])])
       else if (path =? "numbered.yml")%string then
         Loaded (VDict [(VStr "permissions", VStr "read-all");
                        (VStr "jobs",
                         VDict [(VInt 1,
                                 VDict [(VStr "permissions", VStr "read-all");
                                        (VStr "steps", VList [])])])])
       else Loaded (VDict [(VStr "permissions", VStr "read-all")])).

(** Concrete documents for the classification. *)
Definition sample_format : value -> string := fun _ => "{...}".

Definition doc_of (v : value) : dict :=
  [(VStr "name", VStr "ci"); (VStr "permissions", v)].

Definition wide_permissions : dict :=
  [(VStr "contents", VStr "read"); (VStr "issues", VStr "write")].

(** What [readlines] guarantees about a file of several lines: every line
    but the last ends with a line feed. *)
Fixpoint newline_terminated (ls : list string) : Prop :=
  match ls with
  | [] => True
  | l :: rest =>
      match rest with
      | [] => True
      | _ :: _ => (exists s, l = (s ++ LF)%string) /\ newline_terminated rest
      end
  end.

(** Does a line feed occur in [s]? *)
Fixpoint has_lf (s : string) : bool :=
  match s with
  | EmptyString => false
  | String c s' => Ascii.eqb c (ascii_of_N 10) || has_lf s'
  end.

(** The two layouts in which a trigger block with its end and the next
    root-level block can be read off the text.  Single-line form: the first
    trigger line is [on: value]; the block ends on that line and the
    boundary is the first root-level line after it.  Multi-line form: the
    first trigger line is [on:], followed by lines that are blank or
    indented, at least one of them an indented content line; the block ends
    at the last indented content line and the boundary is the root-level
    line that follows, which is not itself a trigger line.
    [trigger_layout lines block_end boundary] gives the two line numbers. *)
Inductive trigger_layout : list string -> Z -> Z -> Prop :=
| single_line_layout (pre : list string) (t : string) (gap : list string)
    (b : string) (rest : list string) :
    (forall l, In l pre -> is_on_line l = false) ->
    is_on_line t = true ->
    strip t <> "on:" ->
    (forall l, In l gap -> is_root_level l = false) ->
    is_root_level b = true ->
    trigger_layout (pre ++ t :: gap ++ b :: rest)
      (Z.of_nat (List.length pre))
      (Z.of_nat (List.length pre) + 1 + Z.of_nat (List.length gap))
| multi_line_layout (pre : list string) (t : string) (body : list string)
    (c : string) (blanks : list string) (b : string) (rest : list string) :
    (forall l, In l pre -> is_on_line l = false) ->
    is_on_line t = true ->
    strip t = "on:" ->
    (forall l, In l body -> is_root_level l = false) ->
    is_indented_content c = true ->
    (forall l, In l blanks -> strip l = EmptyString) ->
    is_root_level b = true ->
    is_on_line b = false ->
    trigger_layout (pre ++ t :: body ++ c :: blanks ++ b :: rest)
      (Z.of_nat (List.length pre) + 1 + Z.of_nat (List.length body))
      (Z.of_nat (List.length pre) + 1 + Z.of_nat (List.length body) + 1
       + Z.of_nat (List.length blanks)).

(** * Properties *)

(** ** Facts about the string primitives *)

Section StringFacts.

Lemma startswith_app (p t : string) : startswith (p ++ t)%string p = true.
Proof.
  unfold startswith. induction p as [|c p IH]; simpl.
  - destruct t; reflexivity.
  - destruct (ascii_dec c c) as [_|ne]; [exact IH | now elim ne].
Qed.

Lemma startswith_inv (p s : string) :
  startswith s p = true -> exists t, s = (p ++ t)%string.
Proof.
  unfold startswith. revert s.
  induction p as [|c p IH]; intros s Hp.
  - now exists s.
  - destruct s as [|b s]; simpl in Hp; [discriminate|].
    destruct (ascii_dec c b) as [->|]; [|discriminate].
    destruct (IH _ Hp) as [t ->]. now exists t.
Qed.

Lemma contains_eq (sub s : string) :
  contains sub s =
  startswith s sub
  || match s with
     | EmptyString => false
     | String _ s' => contains sub s'
     end.
Proof. destruct s; reflexivity. Qed.

(** [sub in s] holds exactly when [s] splits around a copy of [sub]. *)
Lemma contains_iff (sub s : string) :
  contains sub s = true <-> exists a b, s = (a ++ sub ++ b)%string.
Proof.
  split.
  - induction s as [|c s IH]; rewrite contains_eq; intros H;
      apply orb_true_iff in H; destruct H as [H|H]; try discriminate.
    + destruct (startswith_inv _ _ H) as [t Ht].
      exists EmptyString, t. exact Ht.
    + destruct (startswith_inv _ _ H) as [t Ht].
      exists EmptyString, t. exact Ht.
    + destruct (IH H) as (a & b & ->).
      now exists (String c a), b.
  - intros (a & b & ->).
    induction a as [|c a IH]; rewrite contains_eq.
    + cbn [String.append]. now rewrite startswith_app.
    + cbn [String.append]. rewrite IH. apply orb_true_r.
Qed.

Lemma lower_app (a b : string) :
  lower (a ++ b) = (lower a ++ lower b)%string.
Proof. induction a as [|c a IH]; simpl; [reflexivity | now rewrite IH]. Qed.

(** Lower-casing works character by character, so a split of [lower t]
    comes from a split of [t]. *)
Lemma lower_split (x y t : string) :
  lower t = (x ++ y)%string ->
  exists t1 t2, t = (t1 ++ t2)%string /\ lower t1 = x /\ lower t2 = y.
Proof.
  revert t. induction x as [|c x IH]; intros t H.
  - exists EmptyString, t. auto.
  - destruct t as [|d t]; simpl in H; [discriminate|].
    injection H as Hc Ht.
    destruct (IH _ Ht) as (t1 & t2 & -> & H1 & H2).
    exists (String d t1), t2. simpl. now rewrite Hc, H1.
Qed.

End StringFacts.

(** ** The generated-file heuristic *)

Lemma has_auto_gen_indicator_iff (lines : list string) :
  has_auto_gen_indicator lines = true <->
  exists m, In m auto_gen_indicators /\ occurs_ci m (join (firstn 10 lines)).
Proof.
  unfold has_auto_gen_indicator. rewrite existsb_exists.
  split; intros (m & Hin & H); exists m; (split; [exact Hin|]).
  - apply contains_iff in H. destruct H as (a' & b' & H).
    destruct (lower_split _ _ _ H) as (a & t & Ht & _ & H2).
    destruct (lower_split _ _ _ H2) as (s & b & -> & Hs & _).
    now exists a, s, b.
  - destruct H as (a & s & b & -> & Hs).
    apply contains_iff. exists (lower a), (lower b).
    now rewrite !lower_app, Hs.
Qed.

Lemma has_auto_gen_indicator_firstn (lines : list string) :
  has_auto_gen_indicator (firstn 10 lines) = has_auto_gen_indicator lines.
Proof. unfold has_auto_gen_indicator. now rewrite firstn_firstn. Qed.

(** C4.  [is_auto_generated_file] answers [false] when the file cannot be
    read; otherwise it answers [true] exactly when one of the indicators
    occurs, up to letter case, in the concatenation of the first ten lines;
    so two files with the same first ten lines get the same answer, and
    when the first ten lines hold no indicator the answer is [false]
    whatever line 11 and the following lines contain. *)
Theorem auto_generated_heuristic :
  (forall h path,
      read_lines h path = None -> is_auto_generated_file h path = false)
  /\ (forall h path lines,
      read_lines h path = Some lines ->
      (is_auto_generated_file h path = true <->
       exists m, In m auto_gen_indicators
                 /\ occurs_ci m (join (firstn 10 lines))))
  /\ (forall h1 path1 lines1 h2 path2 lines2,
      read_lines h1 path1 = Some lines1 ->
      read_lines h2 path2 = Some lines2 ->
      firstn 10 lines1 = firstn 10 lines2 ->
      is_auto_generated_file h1 path1 = is_auto_generated_file h2 path2)
  /\ (forall h path first rest,
      read_lines h path = Some (first ++ rest)%list ->
      List.length first = 10%nat ->
      (forall m, In m auto_gen_indicators -> ~ occurs_ci m (join first)) ->
      is_auto_generated_file h path = false).
Proof.
  repeat split.
  - intros h path H. unfold is_auto_generated_file. now rewrite H.
  - unfold is_auto_generated_file. rewrite H.
    apply has_auto_gen_indicator_iff.
  - unfold is_auto_generated_file. rewrite H.
    apply has_auto_gen_indicator_iff.
  - intros h1 path1 lines1 h2 path2 lines2 H1 H2 Hsame.
    unfold is_auto_generated_file. rewrite H1, H2.
    rewrite <- (has_auto_gen_indicator_firstn lines1),
            <- (has_auto_gen_indicator_firstn lines2).
    now rewrite Hsame.
  - intros h path first rest H Hlen Hno.
    unfold is_auto_generated_file. rewrite H.
    destruct (has_auto_gen_indicator (first ++ rest)) eqn:E; [|reflexivity].
    apply has_auto_gen_indicator_iff in E. destruct E as (m & Hin & Hocc).
    rewrite firstn_app, <- Hlen, firstn_all, Nat.sub_diag in Hocc.
    simpl in Hocc. rewrite app_nil_r in Hocc.
    now elim (Hno m Hin).
Qed.

Lemma auto_generated_heuristic_witness :
  is_auto_generated_file sample_host "missing.yml" = false
  /\ is_auto_generated_file sample_host "mixed.yml" = true
  /\ is_auto_generated_file sample_host "late.yml" = false.
Proof.
  destruct auto_generated_heuristic as (Hfail & Hiff & _ & Hten).
  split; [|split].
  - apply Hfail. reflexivity.
  - apply (Hiff sample_host "mixed.yml"
             [line "name: release"; line "# This file is AutoGenerated"]).
    + reflexivity.
    + exists "autogenerated". split; [simpl; auto|].
      exists (line "name: release" ++ "# This file is ")%string,
             "AutoGenerated", LF.
      split; reflexivity.
  - apply (Hten sample_host "late.yml"
             [line "name: ci"; line "on: push"; line "permissions:";
              line "  contents: read"; line "jobs:"; line "  build:";
              line "    runs-on: ubuntu-latest"; line "    steps:";
              line "      - run: make"; line "      - run: make test"]
             [line "# DO NOT EDIT"]).
    + reflexivity.
    + reflexivity.
    + intros m Hin Hocc.
      assert (E : has_auto_gen_indicator
                    [line "name: ci"; line "on: push"; line "permissions:";
                     line "  contents: read"; line "jobs:"; line "  build:";
                     line "    runs-on: ubuntu-latest"; line "    steps:";
                     line "      - run: make"; line "      - run: make test"]
                  = true).
      { apply has_auto_gen_indicator_iff. exists m. split; [exact Hin|].
        exact Hocc. }
      vm_compute in E. discriminate E.
Defined.

(** ** The root-level classification *)

Lemma len_cons {A} (x : A) (xs : list A) : len (x :: xs) = len xs + 1.
Proof. unfold len. cbn [List.length]. lia. Qed.

Lemma len_nonneg {A} (xs : list A) : 0 <= len xs.
Proof. unfold len. lia. Qed.

Section RootClassification.

Variable py_format : value -> string.
Variable h : host.

(** The mapping branch, with the unreachable last [else] removed. *)
Lemma check_mapping (d : dict) (path : string) (m : dict) :
  dict_get d "permissions" = Some (VDict m) ->
  check_root_permissions py_format h d path =
  match m with
  | [] => (false, ["Root-level permissions block is empty"], [])
  | [(VStr k, VStr v)] =>
      if ((k =? "contents") && (v =? "read"))%string then (true, [], [])
      else (true, [],
            if is_auto_generated_file h path
            then generated_warnings py_format m
            else breadth_warnings py_format m)
  | _ => (true, [],
          if is_auto_generated_file h path
          then generated_warnings py_format m
          else breadth_warnings py_format m)
  end.
Proof.
  intros Hd. unfold check_root_permissions. rewrite Hd.
  destruct m as [|[k v] [|kv2 m']].
  - reflexivity.
  - unfold generated_warnings, breadth_warnings.
    destruct k, v; cbn; try destruct (_ =? "contents")%string; cbn;
      try destruct (_ =? "read")%string; cbn;
      destruct (is_auto_generated_file h path); reflexivity.
  - rewrite !len_cons. pose proof (len_nonneg m') as Hn.
    destruct (Z.eqb_spec (len m' + 1 + 1) 1) as [E|_]; [lia|].
    destruct (Z.eqb_spec (len m' + 1 + 1) 0) as [E|_]; [lia|].
    cbn [andb].
    destruct (Z.gtb_spec (len m' + 1 + 1) 1) as [_|E]; [|lia].
    cbn [orb].
    destruct k as [| | | |k| | | | | |], v as [| | | |v| | | | | |];
      destruct (is_auto_generated_file h path); reflexivity.
Qed.

(** Every result is either valid with no error, or invalid with exactly
    one error and no warning. *)
Lemma check_shape (d : dict) (path : string) :
  (exists warns, check_root_permissions py_format h d path = (true, [], warns))
  \/ (exists e, check_root_permissions py_format h d path = (false, [e], [])).
Proof.
  destruct (dict_get d "permissions") as [v|] eqn:Hd.
  - destruct v;
      try (right; unfold check_root_permissions; rewrite Hd;
           eexists; reflexivity).
    + unfold check_root_permissions; rewrite Hd.
      destruct (s =? "read-all")%string; [left; eexists; reflexivity|].
      destruct (s =? "write-all")%string;
        [left | right]; eexists; reflexivity.
    + rewrite (check_mapping d path items Hd).
      destruct items as [|[k v] [|kv2 m']].
      * right; eexists; reflexivity.
      * destruct k, v; try (left; eexists; reflexivity).
        destruct ((_ =? _) && (_ =? _))%string; left; eexists; reflexivity.
      * left. destruct k, v; eexists; reflexivity.
  - right. unfold check_root_permissions; rewrite Hd.
    eexists; reflexivity.
Qed.

(** C1.  When the root [permissions] value is a mapping: the one-entry
    mapping [contents: read] is valid with no warning; every other
    non-empty mapping is valid with the two-line warning, whose wording
    is the softer one when the file matches the generated-file heuristic
    and the ordinary one otherwise. *)
Theorem root_mapping_classification (d : dict) (path : string) (m : dict) :
  dict_get d "permissions" = Some (VDict m) ->
  (m = contents_read -> check_root_permissions py_format h d path = (true, [], []))
  /\ (m <> [] -> m <> contents_read ->
      check_root_permissions py_format h d path =
      (true, [],
       if is_auto_generated_file h path
       then generated_warnings py_format m
       else breadth_warnings py_format m)).
Proof.
  intros Hd. rewrite (check_mapping d path m Hd). split.
  - intros ->. reflexivity.
  - intros Hne Hnm. destruct m as [|[k v] [|kv2 m']].
    + now elim Hne.
    + destruct k, v; try reflexivity.
      destruct (String.eqb_spec s "contents") as [->|];
        destruct (String.eqb_spec s0 "read") as [->|];
        try reflexivity.
      now elim Hnm.
    + destruct k, v; reflexivity.
Qed.

(** C2.  When the root [permissions] value is a string: [read-all] is
    valid with no warning, [write-all] is valid with exactly one warning,
    and every other string is an error. *)
Theorem root_string_classification (d : dict) (path : string) (s : string) :
  dict_get d "permissions" = Some (VStr s) ->
  (s = "read-all" -> check_root_permissions py_format h d path = (true, [], []))
  /\ (s = "write-all" ->
      check_root_permissions py_format h d path =
      (true, [],
       ["Root-level 'write-all' permission is overly permissive - consider using 'read-all' or 'contents: read'"]))
  /\ (s <> "read-all" -> s <> "write-all" ->
      check_root_permissions py_format h d path =
      (false,
       [("Invalid root-level permissions string: '" ++ s ++ "'")%string],
       [])).
Proof.
  intros Hd. unfold check_root_permissions. rewrite Hd.
  repeat split.
  - intros ->. reflexivity.
  - intros ->. reflexivity.
  - intros H1 H2.
    destruct (String.eqb_spec s "read-all"); [contradiction|].
    destruct (String.eqb_spec s "write-all"); [contradiction|].
    reflexivity.
Qed.

(** C3.  A document without the root [permissions] key, with a null value
    or with an empty mapping is an error; a value that is neither a
    string nor a mapping (a sequence, a number, a boolean, ...) is the
    error that reports its type. *)
Theorem root_missing_or_malformed (d : dict) (path : string) :
  (dict_get d "permissions" = None ->
   check_root_permissions py_format h d path = (false, ["Missing root-level 'permissions' block"], []))
  /\ (dict_get d "permissions" = Some VNone ->
      check_root_permissions py_format h d path =
      (false, ["Root-level 'permissions' block is empty"], []))
  /\ (dict_get d "permissions" = Some (VDict []) ->
      check_root_permissions py_format h d path = (false, ["Root-level permissions block is empty"], []))
  /\ (forall v,
       dict_get d "permissions" = Some v -> other_shape v = true ->
       check_root_permissions py_format h d path =
       (false,
        [("Invalid root-level permissions format: " ++ type_repr v)%string],
        [])).
Proof.
  unfold check_root_permissions. repeat split.
  - intros ->. reflexivity.
  - intros ->. reflexivity.
  - intros ->. reflexivity.
  - intros v -> Hv. destruct v; try discriminate Hv; reflexivity.
Qed.

(** C9.  The triple returned by [check_root_permissions] has [is_valid]
    true exactly when [errors] is empty, and an invalid result carries
    exactly one error and no warning. *)
Theorem check_root_permissions_invariant (d : dict) (path : string) :
  let '(is_valid, errors, warnings) := check_root_permissions py_format h d path in
  (is_valid = true <-> errors = [])
  /\ (is_valid = false -> (exists e, errors = [e]) /\ warnings = []).
Proof.
  destruct (check_shape d path) as [[w ->]|[e ->]].
  - split; [tauto | discriminate].
  - split; [split; discriminate | eauto].
Qed.

End RootClassification.

Lemma root_mapping_classification_witness :
  check_root_permissions sample_format sample_host
    (doc_of (VDict contents_read)) "plain.yml" = (true, [], [])
  /\ check_root_permissions sample_format sample_host
       (doc_of (VDict wide_permissions)) "plain.yml"
     = (true, [], breadth_warnings sample_format wide_permissions)
  /\ check_root_permissions sample_format sample_host
       (doc_of (VDict wide_permissions)) "mixed.yml"
     = (true, [], generated_warnings sample_format wide_permissions).
Proof.
  split; [|split].
  - apply (proj1 (root_mapping_classification sample_format sample_host
                    (doc_of (VDict contents_read)) "plain.yml" contents_read
                    eq_refl)).
    reflexivity.
  - apply (proj2 (root_mapping_classification sample_format sample_host
                    (doc_of (VDict wide_permissions)) "plain.yml"
                    wide_permissions eq_refl)); discriminate.
  - apply (proj2 (root_mapping_classification sample_format sample_host
                    (doc_of (VDict wide_permissions)) "mixed.yml"
                    wide_permissions eq_refl)); discriminate.
Defined.

Lemma root_string_classification_witness :
  check_root_permissions sample_format sample_host
    (doc_of (VStr "read-all")) "plain.yml" = (true, [], [])
  /\ (exists w,
       check_root_permissions sample_format sample_host
         (doc_of (VStr "write-all")) "plain.yml" = (true, [], [w]))
  /\ check_root_permissions sample_format sample_host
       (doc_of (VStr "read")) "plain.yml"
     = (false, ["Invalid root-level permissions string: 'read'"], []).
Proof.
  split; [|split].
  - apply (proj1 (root_string_classification sample_format sample_host
                    (doc_of (VStr "read-all")) "plain.yml" "read-all" eq_refl)).
    reflexivity.
  - eexists.
    apply (proj1 (proj2 (root_string_classification sample_format sample_host
                           (doc_of (VStr "write-all")) "plain.yml" "write-all"
                           eq_refl))).
    reflexivity.
  - apply (proj2 (proj2 (root_string_classification sample_format sample_host
                           (doc_of (VStr "read")) "plain.yml" "read"
                           eq_refl))); discriminate.
Defined.

Lemma root_missing_or_malformed_witness :
  check_root_permissions sample_format sample_host
    [(VStr "name", VStr "ci")] "plain.yml"
  = (false, ["Missing root-level 'permissions' block"], [])
  /\ check_root_permissions sample_format sample_host
       (doc_of VNone) "plain.yml"
     = (false, ["Root-level 'permissions' block is empty"], [])
  /\ check_root_permissions sample_format sample_host
       (doc_of (VDict [])) "plain.yml"
     = (false, ["Root-level permissions block is empty"], [])
  /\ check_root_permissions sample_format sample_host
       (doc_of (VList [VStr "read"])) "plain.yml"
     = (false, ["Invalid root-level permissions format: <class 'list'>"], [])
  /\ check_root_permissions sample_format sample_host
       (doc_of (VBool true)) "plain.yml"
     = (false, ["Invalid root-level permissions format: <class 'bool'>"], [])
  /\ check_root_permissions sample_format sample_host
       (doc_of (VInt 7)) "plain.yml"
     = (false, ["Invalid root-level permissions format: <class 'int'>"], []).
Proof.
  split; [|split; [|split; [|split; [|split]]]].
  - apply (proj1 (root_missing_or_malformed sample_format sample_host
                    [(VStr "name", VStr "ci")] "plain.yml")).
    reflexivity.
  - apply (proj1 (proj2 (root_missing_or_malformed sample_format sample_host
                           (doc_of VNone) "plain.yml"))).
    reflexivity.
  - apply (proj1 (proj2 (proj2 (root_missing_or_malformed sample_format
                                  sample_host (doc_of (VDict [])) "plain.yml")))).
    reflexivity.
  - apply (proj2 (proj2 (proj2 (root_missing_or_malformed sample_format
                                  sample_host (doc_of (VList [VStr "read"]))
                                  "plain.yml"))) (VList [VStr "read"]));
      reflexivity.
  - apply (proj2 (proj2 (proj2 (root_missing_or_malformed sample_format
                                  sample_host (doc_of (VBool true))
                                  "plain.yml"))) (VBool true));
      reflexivity.
  - apply (proj2 (proj2 (proj2 (root_missing_or_malformed sample_format
                                  sample_host (doc_of (VInt 7))
                                  "plain.yml"))) (VInt 7));
      reflexivity.
Defined.

(** ** The formatting analyzer *)

Lemma index_in_range {A} (xs : list A) (k : Z) :
  0 <= k < Z.of_nat (List.length xs) ->
  exists x, index xs k = Some x /\ nth_error xs (Z.to_nat k) = Some x.
Proof.
  intros Hk. unfold index.
  destruct (Z.leb_spec 0 k) as [_|]; [|lia].
  destruct (Z.ltb_spec k (Z.of_nat (List.length xs))) as [_|]; [|lia].
  cbn [andb].
  destruct (nth_error xs (Z.to_nat k)) as [x|] eqn:E; [eauto|].
  apply nth_error_None in E. lia.
Qed.

Lemma index_last {A} (xs : list A) :
  xs <> [] -> exists x, index xs (-1) = Some x.
Proof.
  intros Hne. unfold index.
  assert (0 < Z.of_nat (List.length xs)) by (destruct xs; [easy | cbn; lia]).
  destruct (Z.leb_spec 0 (-1)) as [|_]; [lia|]. cbn [andb].
  destruct (Z.leb_spec (- Z.of_nat (List.length xs)) (-1)) as [_|]; [|lia].
  cbn.
  destruct (nth_error xs (Z.to_nat (Z.of_nat (List.length xs) + -1)))
    as [x|] eqn:E; [eauto|].
  apply nth_error_None in E. lia.
Qed.

Lemma nth_error_shift {A} (x : A) (xs : list A) (k j : Z) :
  j + 1 <= k ->
  nth_error (x :: xs) (Z.to_nat (k - j)) = nth_error xs (Z.to_nat (k - (j + 1))).
Proof.
  intros H. replace (Z.to_nat (k - j)) with (S (Z.to_nat (k - (j + 1)))) by lia.
  reflexivity.
Qed.

(** The inner search either leaves [next_block_line] alone or returns the
    number of a root-level line after the trigger line. *)
Lemma find_next_root_spec (rest : list string) : forall j nbl,
  find_next_root j rest nbl = nbl
  \/ (j <= find_next_root j rest nbl < j + Z.of_nat (List.length rest)
      /\ exists l, nth_error rest (Z.to_nat (find_next_root j rest nbl - j)) = Some l
                   /\ is_root_level l = true).
Proof.
  induction rest as [|l rest IH]; intros j nbl; cbn [find_next_root].
  - now left.
  - destruct (is_root_level l) eqn:El.
    + right. split; [cbn [List.length]; lia|].
      exists l. now rewrite Z.sub_diag.
    + destruct (IH (j + 1) nbl) as [E|(Hb & l' & Hn & Hr)]; [now left|].
      right. split; [cbn [List.length]; lia|].
      exists l'. rewrite nth_error_shift by lia. auto.
Qed.

(** Loop invariant on the two line numbers: the block end stays before the
    current line, and a boundary, once set, is a root-level line after the
    block end. *)
Lemma scan_inv (rest : list string) : forall i st,
  0 <= i ->
  -1 <= on_block_end st < i ->
  next_block_line st = -1 ->
  -1 <= on_block_end (scan i rest st) < i + Z.of_nat (List.length rest)
  /\ (next_block_line (scan i rest st) = -1
      \/ (on_block_end (scan i rest st) < next_block_line (scan i rest st)
          /\ i <= next_block_line (scan i rest st) < i + Z.of_nat (List.length rest)
          /\ exists l,
               nth_error rest (Z.to_nat (next_block_line (scan i rest st) - i)) = Some l
               /\ is_root_level l = true)).
Proof.
  induction rest as [|l rest IH]; intros i st Hi Hobe Hnbl.
  - cbn. split; [lia | now left].
  - assert (Hlen : Z.of_nat (List.length (l :: rest))
                   = Z.of_nat (List.length rest) + 1)
      by (cbn [List.length]; lia).
    rewrite Hlen.
    assert (Hrec : forall st',
      -1 <= on_block_end st' < i + 1 -> next_block_line st' = -1 ->
      -1 <= on_block_end (scan (i + 1) rest st')
          < i + (Z.of_nat (List.length rest) + 1)
      /\ (next_block_line (scan (i + 1) rest st') = -1
          \/ (on_block_end (scan (i + 1) rest st')
                < next_block_line (scan (i + 1) rest st')
              /\ i <= next_block_line (scan (i + 1) rest st')
                   < i + (Z.of_nat (List.length rest) + 1)
              /\ exists l0,
                   nth_error (l :: rest)
                     (Z.to_nat (next_block_line (scan (i + 1) rest st') - i))
                   = Some l0
                   /\ is_root_level l0 = true))).
    { intros st' H1 H2.
      destruct (IH (i + 1) st' ltac:(lia) H1 H2) as [Hb [E|(Hlt & Hr & l0 & Hn & Hl0)]].
      - split; [lia | now left].
      - split; [lia|]. right. split; [exact Hlt|]. split; [lia|].
        exists l0. rewrite nth_error_shift by lia. auto. }
    cbn [scan].
    destruct (is_on_line l) eqn:Eon.
    + destruct (strip l =? "on:")%string.
      * apply Hrec; cbn; lia.
      * cbn [on_block_end next_block_line]. split; [lia|].
        destruct (find_next_root_spec rest (i + 1) (next_block_line st))
          as [E|(Hb & l0 & Hn & Hl0)].
        -- left. now rewrite E.
        -- right. split; [lia|]. split; [lia|].
           exists l0. rewrite nth_error_shift by lia. auto.
    + destruct (in_on_block st).
      * destruct (is_indented_content l).
        -- apply Hrec; cbn; lia.
        -- destruct (is_root_level l) eqn:Er.
           ++ cbn [on_block_end next_block_line]. split; [lia|].
              right. split; [lia|]. split; [lia|].
              exists l. now rewrite Z.sub_diag.
           ++ apply Hrec; [lia | exact Hnbl].
      * apply Hrec; [lia | exact Hnbl].
Qed.

Lemma trigger_inv_weaken (seen more : list string) (st st' : scan_state) :
  on_line st' = on_line st ->
  in_on_block st = true \/ (in_on_block st' = in_on_block st
                            /\ on_block_end st' = on_block_end st) ->
  trigger_inv seen st -> trigger_inv (seen ++ more) st'.
Proof.
  intros Hl Hb [(H1 & H2 & H3)|(H0 & t & Hn & Ht)].
  - left. destruct Hb as [Hb|[Hb1 Hb2]]; [congruence|].
    repeat split; congruence.
  - right. rewrite Hl. split; [exact H0|]. exists t. split; [|exact Ht].
    rewrite nth_error_app1; [exact Hn|].
    apply nth_error_Some. congruence.
Qed.

Lemma scan_trigger_inv (rest : list string) : forall seen st,
  trigger_inv seen st ->
  trigger_inv (seen ++ rest) (scan (Z.of_nat (List.length seen)) rest st).
Proof.
  induction rest as [|l rest IH]; intros seen st Hinv.
  - cbn. now rewrite app_nil_r.
  - assert (Hnext : forall st', trigger_inv (seen ++ [l]) st' ->
              trigger_inv (seen ++ l :: rest)
                (scan (Z.of_nat (List.length seen) + 1) rest st')).
    { intros st' H'. specialize (IH (seen ++ [l])%list st' H').
      rewrite <- app_assoc in IH. cbn [List.app] in IH.
      rewrite length_app in IH. cbn [List.length] in IH.
      replace (Z.of_nat (List.length seen + 1))
        with (Z.of_nat (List.length seen) + 1) in IH by lia.
      exact IH. }
    assert (Hhere : nth_error (seen ++ l :: rest)
                      (Z.to_nat (Z.of_nat (List.length seen))) = Some l).
    { rewrite Nat2Z.id, nth_error_app2, Nat.sub_diag by lia. reflexivity. }
    assert (Hhere1 : nth_error (seen ++ [l])
                       (Z.to_nat (Z.of_nat (List.length seen))) = Some l).
    { rewrite Nat2Z.id, nth_error_app2, Nat.sub_diag by lia. reflexivity. }
    cbn [scan].
    destruct (is_on_line l) eqn:Eon.
    + destruct (strip l =? "on:")%string.
      * apply Hnext. right. cbn [on_line]. split; [lia|]. eauto.
      * right. cbn [on_line]. split; [lia|]. eauto.
    + destruct (in_on_block st) eqn:Ein.
      * destruct (is_indented_content l).
        -- apply Hnext. eapply trigger_inv_weaken; [| |exact Hinv]; auto.
        -- destruct (is_root_level l).
           ++ eapply trigger_inv_weaken; [| |exact Hinv]; auto.
           ++ apply Hnext. eapply trigger_inv_weaken; [| |exact Hinv]; auto.
      * apply Hnext. eapply trigger_inv_weaken; [| |exact Hinv]; auto.
Qed.

Lemma scan_lines_inv (lines : list string) :
  -1 <= on_block_end (scan_lines lines) < Z.of_nat (List.length lines)
  /\ (next_block_line (scan_lines lines) = -1
      \/ (on_block_end (scan_lines lines) < next_block_line (scan_lines lines)
          /\ 0 <= next_block_line (scan_lines lines) < Z.of_nat (List.length lines)
          /\ exists l,
               nth_error lines (Z.to_nat (next_block_line (scan_lines lines))) = Some l
               /\ is_root_level l = true)).
Proof.
  pose proof (scan_inv lines 0 scan_init ltac:(lia)
                ltac:(cbn; lia) eq_refl) as H.
  unfold scan_lines. rewrite Z.sub_0_r in H. exact H.
Qed.

Lemma scan_lines_trigger (lines : list string) :
  trigger_inv lines (scan_lines lines).
Proof.
  apply (scan_trigger_inv lines [] scan_init). left. auto.
Qed.

(** The analyzer never indexes [lines] out of range. *)
Lemma analyze_no_index_error (file : option (list string)) :
  analyze_yaml_formatting file <> IndexError.
Proof.
  destruct file as [lines|]; [|discriminate].
  unfold analyze_yaml_formatting.
  destruct (Z.eqb_spec (on_block_end (scan_lines lines)) (-1)) as [|Hne];
    [discriminate|].
  destruct (scan_lines_inv lines) as [Hobe [E|(_ & Hr & _)]].
  - rewrite E.
    destruct (index_last lines) as [x ->]; [|discriminate].
    intros ->. now elim Hne.
  - destruct (index_in_range lines _ Hr) as (x & -> & _). discriminate.
Qed.

(** Without a trigger line nothing is found. *)
Lemma scan_no_trigger (rest : list string) : forall i st,
  in_on_block st = false ->
  (forall l, In l rest -> is_on_line l = false) ->
  scan i rest st = st.
Proof.
  induction rest as [|l rest IH]; intros i st Hin Hno; [reflexivity|].
  cbn [scan]. rewrite (Hno l (or_introl eq_refl)), Hin.
  apply IH; [exact Hin|]. intros l' Hl'. apply Hno. now right.
Qed.

Lemma no_trigger_not_found (lines : list string) :
  (forall l, In l lines -> is_on_line l = false) ->
  analyze_yaml_formatting (Some lines) = StructureNotFound.
Proof.
  intros Hno. unfold analyze_yaml_formatting, scan_lines.
  now rewrite (scan_no_trigger lines 0 scan_init eq_refl Hno).
Qed.

(** On the final state of the scan: when it has recorded both a block end
    and a boundary ([on_block_end] and [next_block_line] are not [-1]),
    then a trigger line was seen, the boundary is a root-level line after
    the block end, the line right after the block end exists, and the
    verdict is rule B when that line is blank after trimming and rule A
    otherwise. *)
Theorem verdict_by_following_line (lines : list string) :
  on_block_end (scan_lines lines) <> -1 ->
  next_block_line (scan_lines lines) <> -1 ->
  exists trigger following boundary,
    index lines (on_line (scan_lines lines)) = Some trigger
    /\ is_on_line trigger = true
    /\ index lines (next_block_line (scan_lines lines)) = Some boundary
    /\ is_root_level boundary = true
    /\ on_block_end (scan_lines lines) < next_block_line (scan_lines lines)
    /\ index lines (on_block_end (scan_lines lines) + 1) = Some following
    /\ analyze_yaml_formatting (Some lines)
       = Verdict (on_block_end (scan_lines lines))
                 (next_block_line (scan_lines lines))
                 (strip boundary)
                 (if (strip following =? EmptyString)%string
                  then RuleB else RuleA).
Proof.
  intros Hobe Hnbl.
  destruct (scan_lines_inv lines) as [Hb [E|(Hlt & Hr & b & Hnb & Hroot)]];
    [contradiction|].
  destruct (scan_lines_trigger lines) as [(_ & _ & E)|(H0 & t & Hnt & Hon)];
    [contradiction|].
  assert (Ht : 0 <= on_line (scan_lines lines) < Z.of_nat (List.length lines)).
  { split; [exact H0|].
    assert (Z.to_nat (on_line (scan_lines lines)) < List.length lines)%nat
      by (apply nth_error_Some; congruence).
    lia. }
  destruct (index_in_range lines _ Ht) as (t' & Hit & Hnt').
  assert (t' = t) by congruence. subst t'.
  destruct (index_in_range lines _ Hr) as (b' & Hib & Hnb').
  assert (b' = b) by congruence. subst b'.
  assert (Hf : 0 <= on_block_end (scan_lines lines) + 1
               < Z.of_nat (List.length lines)) by lia.
  destruct (index_in_range lines _ Hf) as (f & Hif & _).
  exists t, f, b. repeat (split; [assumption|]).
  unfold analyze_yaml_formatting, has_blank_line.
  destruct (Z.eqb_spec (on_block_end (scan_lines lines)) (-1)) as [|_];
    [contradiction|].
  rewrite Hib, Hif.
  destruct (Z.ltb_spec (on_block_end (scan_lines lines) + 1)
              (Z.of_nat (List.length lines))) as [_|]; [|lia].
  reflexivity.
Qed.

Lemma verdict_by_following_line_witness :
  analyze_yaml_formatting
    (Some [line "name: ci"; line "on:"; line "  push:"; line EmptyString;
           line "jobs:"])
  = Verdict 2 4 "jobs:" RuleB
  /\ analyze_yaml_formatting
       (Some [line "name: ci"; line "on:"; line "  push:"; line "jobs:"])
     = Verdict 2 3 "jobs:" RuleA.
Proof.
  split.
  - destruct (verdict_by_following_line
                [line "name: ci"; line "on:"; line "  push:"; line EmptyString;
                 line "jobs:"])
      as (t & f & b & _ & _ & Hb & _ & _ & Hf & Hv).
    + vm_compute. discriminate.
    + vm_compute. discriminate.
    + vm_compute in Hb, Hf. injection Hb as <-. injection Hf as <-.
      exact Hv.
  - destruct (verdict_by_following_line
                [line "name: ci"; line "on:"; line "  push:"; line "jobs:"])
      as (t & f & b & _ & _ & Hb & _ & _ & Hf & Hv).
    + vm_compute. discriminate.
    + vm_compute. discriminate.
    + vm_compute in Hb, Hf. injection Hb as <-. injection Hf as <-.
      exact Hv.
Defined.

(** C6, on the code.  A single-line trigger that is the whole file, and a
    multi-line trigger block that ends the file, have no root-level line
    after them, yet the analyzer prints a verdict for both (with
    [next_block_line] still [-1], so the "next block" it reports is
    [lines[-1]]); and a multi-line trigger followed at once by a root-level
    line is reported as not found although both lines exist. *)
Theorem verdict_without_boundary :
  is_on_line (line "on: push") = true
  /\ analyze_yaml_formatting (Some [line "on: push"])
     = Verdict 0 (-1) "on: push" RuleA
  /\ is_on_line (line "on:") = true
  /\ is_root_level (line "  push:") = false
  /\ analyze_yaml_formatting (Some [line "on:"; line "  push:"])
     = Verdict 1 (-1) "push:" RuleA
  /\ is_root_level (line "jobs:") = true
  /\ analyze_yaml_formatting (Some [line "on:"; line "jobs:"])
     = StructureNotFound.
Proof. vm_compute. repeat split. Qed.

(** ** The literal-text check of the root permissions *)

Lemma find_permissions_line_spec (rest : list string) : forall i,
  find_permissions_line i rest = -1
  \/ (i <= find_permissions_line i rest < i + Z.of_nat (List.length rest)
      /\ exists l,
           nth_error rest (Z.to_nat (find_permissions_line i rest - i)) = Some l
           /\ is_permissions_line l = true).
Proof.
  induction rest as [|l rest IH]; intros i; cbn [find_permissions_line].
  - now left.
  - destruct (is_permissions_line l) eqn:El.
    + right. split; [cbn [List.length]; lia|].
      exists l. now rewrite Z.sub_diag.
    + destruct (IH (i + 1)) as [E|(Hb & l' & Hn & Hp)]; [now left|].
      right. split; [cbn [List.length]; lia|].
      exists l'. rewrite nth_error_shift by lia. auto.
Qed.


(** X8.  The part of the "nothing else may follow" check that the code
    does perform: a non-blank line indented by two spaces directly after
    [contents: read] makes the check fail. *)
Lemma adjacent_permission_rejected (lines : list string) (pl cl nl : string) :
  0 <= find_permissions_line 0 lines ->
  index lines (find_permissions_line 0 lines) = Some pl ->
  strip pl = "permissions:" ->
  index lines (find_permissions_line 0 lines + 1) = Some cl ->
  find_permissions_line 0 lines + 2 < Z.of_nat (List.length lines) ->
  index lines (find_permissions_line 0 lines + 2) = Some nl ->
  strip nl <> EmptyString ->
  startswith nl "  " = true ->
  verify_root_permissions (Some lines) = Some false.
Proof.
  intros Hk Hpl Hs Hcl Hlen Hnl Hnb Hind.
  unfold verify_root_permissions, additional_permission.
  destruct (Z.eqb_spec (find_permissions_line 0 lines) (-1)); [lia|].
  rewrite Hpl, Hs, Hcl, Hnl, Hind. cbn [String.eqb Ascii.eqb Bool.eqb].
  destruct (Z.geb_spec (find_permissions_line 0 lines + 1)
              (Z.of_nat (List.length lines))); [reflexivity|].
  destruct (Z.ltb_spec (find_permissions_line 0 lines + 2)
              (Z.of_nat (List.length lines))); [|lia].
  destruct (String.eqb_spec (strip nl) EmptyString); [contradiction|].
  destruct ((strip cl =? "contents: read")%string && startswith cl "  ");
    reflexivity.
Qed.

(** C7, on the code.  A second permission separated from [contents: read]
    by a blank line is not seen: only the one line right after
    [contents: read] is inspected, so this file is accepted. *)
Theorem blank_separated_permission_accepted :
  verify_root_permissions
    (Some [line "name: ci"; line "permissions:"; line "  contents: read";
           line EmptyString; line "  issues: write"; line EmptyString;
           line "jobs:"])
  = Some true.
Proof. vm_compute. reflexivity. Qed.



(** ** The run over a directory and its exit status *)

Section Run.

Variable py_format : value -> string.
Variable h : host.

Lemma verify_workflow_file_invalid_iff (path : string) :
  is_valid (verify_workflow_file py_format h path) = false
  <-> errors (verify_workflow_file py_format h path) <> [].
Proof.
  unfold verify_workflow_file, load_yaml_file.
  destruct (safe_load h path) as [content|e|e]; cbn;
    try (split; [discriminate | reflexivity]).
  destruct content; cbn; try (split; [discriminate | reflexivity]).
  destruct (check_shape py_format h items path) as [[w ->]|[e ->]]; cbn.
  - split; [discriminate | intros H; now elim H].
  - split; [discriminate | reflexivity].
Qed.

Lemma count_result_errors (r : result) (s : stats) :
  files_with_errors (count_result r s)
  = files_with_errors s + (if is_valid r then 0 else 1).
Proof.
  unfold count_result.
  destruct (is_valid r); [destruct (negb _)|]; cbn; lia.
Qed.

Lemma print_file_result_inl (q : bool) (r : result) (s s' : stats) :
  print_file_result q r s = inl s' -> s' = count_result r s.
Proof.
  unfold print_file_result. destruct q; [congruence|].
  destruct (forallb _ _); congruence.
Qed.

Lemma print_file_result_inr (q : bool) (r : result) (s : stats) (e : exn) :
  print_file_result q r s = inr e -> e = TypeError.
Proof.
  unfold print_file_result. destruct q; [discriminate|].
  destruct (forallb _ _); congruence.
Qed.

(** The only exception of the loop is the [TypeError] of the printing. *)
Lemma verify_loop_inr (q : bool) (files : list string) :
  forall s rs e,
    verify_loop py_format h q files s rs = inr e -> e = TypeError.
Proof.
  induction files as [|f files IH]; intros s rs e; cbn [verify_loop];
    [discriminate|].
  destruct (print_file_result q _ _) as [s2|e'] eqn:Ep.
  - apply IH.
  - intros [= <-]. exact (print_file_result_inr _ _ _ _ Ep).
Qed.

(** The error counter grows exactly by the files that are not valid. *)
Lemma verify_loop_errors (q : bool) (files : list string) :
  forall s rs s' rs',
    verify_loop py_format h q files s rs = inl (s', rs') ->
    files_with_errors s <= files_with_errors s'
    /\ (files_with_errors s < files_with_errors s'
        <-> exists f, In f files
                      /\ is_valid (verify_workflow_file py_format h f) = false).
Proof.
  induction files as [|f files IH]; intros s rs s' rs'; cbn [verify_loop].
  - intros [= <- <-]. split; [lia|].
    split; [lia | intros (f & [] & _)].
  - destruct (print_file_result q _ _) as [s2|e] eqn:Ep; [|discriminate].
    intros Hloop. apply print_file_result_inl in Ep.
    destruct (IH _ _ _ _ Hloop) as [Hle Hiff].
    rewrite Ep, count_result_errors in Hle, Hiff. cbn in Hle, Hiff.
    destruct (is_valid (verify_workflow_file py_format h f)) eqn:Ev.
    + split; [lia|]. split.
      * intros Hlt. destruct (proj1 Hiff ltac:(lia)) as (g & Hg & Hv).
        exists g. split; [now right | exact Hv].
      * intros (g & [<-|Hg] & Hv); [congruence|].
        assert (files_with_errors s + 0 < files_with_errors s')
          by (apply Hiff; eauto).
        lia.
    + split; [lia|]. split; [|lia].
      intros _. exists f. split; [now left | exact Ev].
Qed.

(** C8.  For a run over an existing directory in which no exception is
    raised, the exit status is 0 or 1, and it is 1 exactly when the result
    of at least one file contains an error; so neither warnings nor an
    empty list of files make it non-zero. *)
Theorem exit_status_reflects_errors (quiet : bool) (files : list string) :
  verify_all_workflows py_format h quiet files <> inr TypeError ->
  (main py_format h true quiet files = 1
   <-> exists f, In f files
                 /\ errors (verify_workflow_file py_format h f) <> [])
  /\ (main py_format h true quiet files = 0
      \/ main py_format h true quiet files = 1).
Proof.
  intros Hrun. unfold main. cbn [negb].
  unfold verify_all_workflows in *.
  destruct files as [|f0 files'].
  - cbn. split; [|now left]. split; [discriminate | intros (f & [] & _)].
  - set (files := f0 :: files') in *.
    replace (len files =? 0) with false in *
      by (unfold files; rewrite len_cons;
          pose proof (len_nonneg files');
          symmetry; apply Z.eqb_neq; lia).
    destruct (verify_loop py_format h quiet files stats_init [])
      as [[s rs]|e] eqn:El.
    + destruct (verify_loop_errors _ _ _ _ _ _ El) as [_ Hiff].
      cbn [files_with_errors stats_init] in Hiff.
      destruct (Z.gtb_spec (files_with_errors s) 0) as [Hpos|Hnone].
      * split; [|now right]. split; [|reflexivity]. intros _.
        destruct (proj1 Hiff Hpos) as (f & Hf & Hv).
        exists f. split; [exact Hf|].
        now apply verify_workflow_file_invalid_iff.
      * split; [|now left]. split; [discriminate|].
        intros (f & Hf & He).
        apply verify_workflow_file_invalid_iff in He.
        assert (0 < files_with_errors s) by (apply Hiff; eauto).
        lia.
    + rewrite (verify_loop_inr _ _ _ _ _ El) in Hrun. now elim Hrun.
Qed.

End Run.

Lemma exit_status_reflects_errors_witness :
  ((main sample_format sample_host true false ["plain.yml"; "wide.yml"] = 1
    <-> exists f, In f ["plain.yml"; "wide.yml"]
                  /\ errors (verify_workflow_file sample_format sample_host f)
                     <> [])
   /\ (main sample_format sample_host true false ["plain.yml"; "wide.yml"] = 0
       \/ main sample_format sample_host true false ["plain.yml"; "wide.yml"]
          = 1))
  /\ ((main sample_format sample_host true false ["plain.yml"; "broken.yml"] = 1
       <-> exists f, In f ["plain.yml"; "broken.yml"]
                     /\ errors (verify_workflow_file sample_format sample_host f)
                        <> [])
      /\ (main sample_format sample_host true false ["plain.yml"; "broken.yml"]
          = 0
          \/ main sample_format sample_host true false
               ["plain.yml"; "broken.yml"] = 1)).
Proof.
  split.
  - apply (exit_status_reflects_errors sample_format sample_host false
             ["plain.yml"; "wide.yml"]).
    vm_compute. discriminate.
  - apply (exit_status_reflects_errors sample_format sample_host false
             ["plain.yml"; "broken.yml"]).
    vm_compute. discriminate.
Defined.

(** The sample runs, evaluated: warnings only and no file at all exit
    with 0, one unparsable file exits with 1; and a job named by a number
    makes the printing raise, which [main] turns into exit status 1 unless
    the output is suppressed. *)
Example sample_runs :
  main sample_format sample_host true false ["plain.yml"; "wide.yml"] = 0
  /\ main sample_format sample_host true false [] = 0
  /\ main sample_format sample_host true false ["plain.yml"; "broken.yml"] = 1
  /\ verify_all_workflows sample_format sample_host false ["numbered.yml"]
     = inr TypeError
  /\ main sample_format sample_host true false ["numbered.yml"] = 1
  /\ main sample_format sample_host true true ["numbered.yml"] = 0
  /\ main sample_format sample_host false false [] = 1.
Proof. vm_compute. repeat split. Qed.

(** * Further properties of the formatting analyzer *)

(** A trigger line is in particular a root-level line. *)
Lemma on_line_root_level (l : string) :
  is_on_line l = true -> is_root_level l = true.
Proof.
  unfold is_on_line, is_root_level. intros H.
  apply andb_true_iff in H. destruct H as [H ->].
  rewrite andb_true_r. apply orb_true_iff in H. destruct H as [H|H].
  - apply String.eqb_eq in H. now rewrite H.
  - destruct (strip l); [discriminate H | reflexivity].
Qed.

Lemma blank_line_flags (l : string) :
  strip l = EmptyString ->
  is_on_line l = false /\ is_indented_content l = false
  /\ is_root_level l = false.
Proof.
  unfold is_on_line, is_indented_content, is_root_level. intros ->.
  repeat split; reflexivity.
Qed.

Lemma Zlength_app {A} (xs ys : list A) :
  Z.of_nat (List.length (xs ++ ys))
  = Z.of_nat (List.length xs) + Z.of_nat (List.length ys).
Proof. rewrite length_app. lia. Qed.

Lemma Zlength_cons {A} (x : A) (xs : list A) :
  Z.of_nat (List.length (x :: xs)) = Z.of_nat (List.length xs) + 1.
Proof. cbn [List.length]. lia. Qed.

Lemma index_middle {A} (xs : list A) (y : A) (ys : list A) :
  index (xs ++ y :: ys) (Z.of_nat (List.length xs)) = Some y.
Proof.
  destruct (index_in_range (xs ++ y :: ys) (Z.of_nat (List.length xs)))
    as (x & -> & Hn).
  - rewrite Zlength_app, Zlength_cons. lia.
  - rewrite Nat2Z.id, nth_error_app2, Nat.sub_diag in Hn by lia.
    cbn in Hn. congruence.
Qed.

(** Lines before the first trigger line leave the state untouched. *)
Lemma scan_skip (pre : list string) : forall i rest st,
  in_on_block st = false ->
  (forall l, In l pre -> is_on_line l = false) ->
  scan i (pre ++ rest) st = scan (i + Z.of_nat (List.length pre)) rest st.
Proof.
  induction pre as [|l pre IH]; intros i rest st Hin Hno.
  - cbn. now rewrite Z.add_0_r.
  - cbn [List.app scan]. rewrite (Hno l (or_introl eq_refl)), Hin.
    rewrite IH; [|exact Hin|intros l' Hl'; apply Hno; now right].
    rewrite Zlength_cons. f_equal. lia.
Qed.

(** Inside a multi-line block, lines that are not root-level only move
    [on_block_end]. *)
Lemma scan_block (body : list string) : forall i rest st,
  in_on_block st = true ->
  (forall l, In l body -> is_root_level l = false) ->
  exists e,
    scan i (body ++ rest) st
    = scan (i + Z.of_nat (List.length body)) rest
        (mk_scan e true (next_block_line st) (on_line st)).
Proof.
  induction body as [|l body IH]; intros i rest st Hin Hno.
  - exists (on_block_end st). cbn. rewrite Z.add_0_r.
    destruct st; cbn in *. now rewrite Hin.
  - cbn [List.app scan].
    assert (Hr : is_root_level l = false) by (apply Hno; now left).
    assert (Hon : is_on_line l = false).
    { destruct (is_on_line l) eqn:E; [|reflexivity].
      apply on_line_root_level in E. congruence. }
    rewrite Hon, Hin, Hr.
    assert (Hno' : forall l', In l' body -> is_root_level l' = false)
      by (intros l' Hl'; apply Hno; now right).
    rewrite Zlength_cons.
    replace (i + (Z.of_nat (List.length body) + 1))
      with (i + 1 + Z.of_nat (List.length body)) by lia.
    destruct (is_indented_content l).
    + destruct (IH (i + 1) rest
                  (mk_scan i (in_on_block st) (next_block_line st) (on_line st))
                  Hin Hno') as [e He].
      exists e. cbn [next_block_line on_line] in He.
      rewrite Hin in He. exact He.
    + destruct (IH (i + 1) rest st Hin Hno') as [e He].
      exists e. exact He.
Qed.

(** Blank lines change nothing. *)
Lemma scan_blanks (blanks : list string) : forall i rest st,
  (forall l, In l blanks -> strip l = EmptyString) ->
  scan i (blanks ++ rest) st
  = scan (i + Z.of_nat (List.length blanks)) rest st.
Proof.
  induction blanks as [|l blanks IH]; intros i rest st Hb.
  - cbn. now rewrite Z.add_0_r.
  - cbn [List.app scan].
    destruct (blank_line_flags l (Hb l (or_introl eq_refl))) as (-> & -> & ->).
    rewrite Zlength_cons.
    replace (i + (Z.of_nat (List.length blanks) + 1))
      with (i + 1 + Z.of_nat (List.length blanks)) by lia.
    destruct (in_on_block st);
      apply IH; intros l' Hl'; apply Hb; now right.
Qed.

(** X1.  [analyze_yaml_formatting] never raises [IndexError]: whenever it
    passes its "found" test the list of lines is not empty and
    [next_block_line] is [-1] or a valid line number, so
    [lines[next_block_line]] exists. *)
Theorem analyze_never_index_error (file : option (list string)) :
  analyze_yaml_formatting file <> IndexError
  /\ (forall lines e n text r,
        analyze_yaml_formatting file = Verdict e n text r ->
        file = Some lines ->
        0 <= e < Z.of_nat (List.length lines)
        /\ (n = -1 \/ e < n < Z.of_nat (List.length lines))).
Proof.
  split; [apply analyze_no_index_error|].
  intros lines e n text r H ->. unfold analyze_yaml_formatting in H.
  destruct (Z.eqb_spec (on_block_end (scan_lines lines)) (-1)) as [|Hne];
    [discriminate|].
  destruct (index lines (next_block_line (scan_lines lines)));
    [|discriminate].
  injection H as <- <- _ _.
  destruct (scan_lines_inv lines) as [Hobe [E|(Hlt & Hr & _)]].
  - split; [lia | now left].
  - split; [lia | right; lia].
Qed.

Lemma analyze_never_index_error_witness :
  0 <= 1 < Z.of_nat (List.length [line "on:"; line "  push:"])
  /\ (-1 = -1 \/ 1 < -1 < Z.of_nat (List.length [line "on:"; line "  push:"])).
Proof.
  apply (proj2 (analyze_never_index_error (Some [line "on:"; line "  push:"]))
           [line "on:"; line "  push:"] 1 (-1) "push:" RuleA);
    reflexivity.
Defined.

(** X2.  A file without a trigger line (a line that is not indented and
    whose trimmed text is [on:] or starts with [on: ]) is reported as
    "structure not found". *)
Theorem no_trigger_structure_not_found (lines : list string) :
  (forall l, In l lines -> is_on_line l = false) ->
  analyze_yaml_formatting (Some lines) = StructureNotFound.
Proof.
  exact (no_trigger_not_found lines).
Qed.

Lemma no_trigger_structure_not_found_witness :
  analyze_yaml_formatting
    (Some [line "name: ci"; line "jobs:"; line "  on: push"; line "once:"])
  = StructureNotFound.
Proof.
  apply no_trigger_structure_not_found.
  intros l [<-|[<-|[<-|[<-|[]]]]]; reflexivity.
Defined.

(** The "found" path of the analyzer, once the final state is known. *)
Lemma analyze_of_state (lines : list string) (e n ol : Z) (io : bool)
    (nl : string) :
  scan_lines lines = mk_scan e io n ol ->
  e <> -1 ->
  index lines n = Some nl ->
  analyze_yaml_formatting (Some lines)
  = Verdict e n (strip nl)
      (if has_blank_line lines e then RuleB else RuleA).
Proof.
  intros Hs He Hn. unfold analyze_yaml_formatting. rewrite Hs.
  cbn [on_block_end next_block_line].
  destruct (Z.eqb_spec e (-1)); [contradiction|].
  now rewrite Hn.
Qed.



(** X4.  Multi-line trigger.  For a file made of lines without a trigger,
    the line [on:], a block of lines none of which is root-level, one last
    indented content line, some blank lines, and then a root-level line
    that is not itself a trigger: the block ends at that last content line,
    the boundary is that root-level line, and the verdict is rule B exactly
    when at least one blank line separates them. *)
Theorem multi_line_trigger_verdict (pre : list string) (t : string)
    (body : list string) (c : string) (blanks : list string) (b : string)
    (rest : list string) :
  (forall l, In l pre -> is_on_line l = false) ->
  is_on_line t = true ->
  strip t = "on:" ->
  (forall l, In l body -> is_root_level l = false) ->
  is_indented_content c = true ->
  (forall l, In l blanks -> strip l = EmptyString) ->
  is_root_level b = true ->
  is_on_line b = false ->
  analyze_yaml_formatting
    (Some (pre ++ t :: body ++ c :: blanks ++ b :: rest)%list)
  = Verdict
      (Z.of_nat (List.length pre) + 1 + Z.of_nat (List.length body))
      (Z.of_nat (List.length pre) + 1 + Z.of_nat (List.length body) + 1
       + Z.of_nat (List.length blanks))
      (strip b)
      (match blanks with [] => RuleA | _ :: _ => RuleB end).
Proof.
  intros Hpre Hon Hs Hbody Hc Hblanks Hb Hbon.
  set (ic := Z.of_nat (List.length pre) + 1 + Z.of_nat (List.length body)).
  set (ib := ic + 1 + Z.of_nat (List.length blanks)).
  set (lines := (pre ++ t :: body ++ c :: blanks ++ b :: rest)%list).
  assert (Hcs : startswith c " " = true).
  { unfold is_indented_content in Hc. now apply andb_true_iff in Hc. }
  assert (Hbs : startswith b " " = false).
  { unfold is_root_level in Hb. apply andb_true_iff in Hb.
    destruct Hb as [_ Hb]. now apply negb_true_iff in Hb. }
  assert (Hstate : scan_lines lines
                   = mk_scan ic true ib (Z.of_nat (List.length pre))).
  { unfold scan_lines, lines.
    rewrite (scan_skip pre 0 _ scan_init eq_refl Hpre).
    cbn [scan Z.add]. rewrite Hon, Hs. cbn [String.eqb Ascii.eqb Bool.eqb].
    destruct (scan_block body (Z.of_nat (List.length pre) + 1)
                (c :: blanks ++ b :: rest)
                (mk_scan (on_block_end scan_init) true
                   (next_block_line scan_init) (Z.of_nat (List.length pre)))
                eq_refl Hbody) as [e ->].
    cbn [scan next_block_line on_line in_on_block scan_init].
    assert (Hcon : is_on_line c = false).
    { unfold is_on_line. rewrite Hcs. apply andb_false_r. }
    rewrite Hcon, Hc.
    rewrite (scan_blanks blanks _ (b :: rest) _ Hblanks).
    cbn [scan in_on_block on_block_end next_block_line on_line].
    rewrite Hbon, Hb.
    assert (Hbc : is_indented_content b = false).
    { unfold is_indented_content. rewrite Hbs. apply andb_false_r. }
    rewrite Hbc. reflexivity. }
  assert (Hlen : Z.of_nat (List.length lines)
                 = ib + 1 + Z.of_nat (List.length rest)).
  { unfold lines, ib, ic.
    rewrite Zlength_app, Zlength_cons, Zlength_app, Zlength_cons,
      Zlength_app, Zlength_cons. lia. }
  assert (Hib : index lines ib = Some b).
  { unfold lines.
    replace (pre ++ t :: body ++ c :: blanks ++ b :: rest)%list
      with ((pre ++ t :: body ++ c :: blanks) ++ b :: rest)%list.
    - replace ib
        with (Z.of_nat (List.length (pre ++ t :: body ++ c :: blanks))).
      + apply index_middle.
      + unfold ib, ic.
        rewrite Zlength_app, Zlength_cons, Zlength_app, Zlength_cons. lia.
    - rewrite <- app_assoc. cbn [List.app]. rewrite <- app_assoc.
      reflexivity. }
  pose proof (Zle_0_nat (List.length pre)) as Hp0.
  pose proof (Zle_0_nat (List.length body)) as Hb0.
  rewrite (analyze_of_state lines _ _ _ _ b Hstate ltac:(unfold ic; lia) Hib).
  f_equal. unfold has_blank_line. rewrite Hlen.
  pose proof (Zle_0_nat (List.length blanks)) as Hk0.
  pose proof (Zle_0_nat (List.length rest)) as Hr0.
  destruct (Z.ltb_spec (ic + 1) (ib + 1 + Z.of_nat (List.length rest)));
    [|unfold ib in *; lia].
  cbn [andb].
  assert (Hnext : forall x xs,
             (blanks ++ b :: rest = x :: xs)%list ->
             index lines (ic + 1) = Some x).
  { intros x xs E. unfold lines. rewrite E.
    replace (pre ++ t :: body ++ c :: x :: xs)%list
      with ((pre ++ t :: body ++ [c]) ++ x :: xs)%list.
    - replace (ic + 1)
        with (Z.of_nat (List.length (pre ++ t :: body ++ [c]))).
      + apply index_middle.
      + unfold ic. rewrite Zlength_app, Zlength_cons, Zlength_app.
        cbn [List.length Z.of_nat]. lia.
    - rewrite <- app_assoc. cbn [List.app]. rewrite <- app_assoc.
      reflexivity. }
  destruct blanks as [|k blanks'].
  - rewrite (Hnext b rest eq_refl).
    unfold is_root_level in Hb. apply andb_true_iff in Hb.
    destruct Hb as [Hb _]. destruct (strip b); [discriminate Hb|].
    reflexivity.
  - rewrite (Hnext k (blanks' ++ b :: rest)%list eq_refl).
    rewrite (Hblanks k (or_introl eq_refl)). reflexivity.
Qed.

Lemma multi_line_trigger_verdict_witness :
  analyze_yaml_formatting
    (Some ([line "name: ci"] ++ line "on:"
             :: [line "  push:"; line EmptyString] ++ line "    branches: [main]"
             :: [line EmptyString] ++ line "jobs:" :: [line "  build:"])%list)
  = Verdict 4 6 "jobs:" RuleB.
Proof.
  apply (multi_line_trigger_verdict [line "name: ci"] (line "on:")
           [line "  push:"; line EmptyString] (line "    branches: [main]")
           [line EmptyString] (line "jobs:") [line "  build:"]).
  - intros l [<-|[]]. reflexivity.
  - reflexivity.
  - reflexivity.
  - intros l [<-|[<-|[]]]; reflexivity.
  - reflexivity.
  - intros l [<-|[]]. reflexivity.
  - reflexivity.
  - reflexivity.
Defined.

(** * Further properties of the literal-text check *)

Lemma adjacent_permission_rejected_witness :
  verify_root_permissions
    (Some [line "permissions:"; line "  contents: read";
           line "  issues: write"; line "jobs:"])
  = Some false.
Proof.
  apply (adjacent_permission_rejected
           [line "permissions:"; line "  contents: read";
            line "  issues: write"; line "jobs:"]
           (line "permissions:") (line "  contents: read")
           (line "  issues: write")).
  - vm_compute. discriminate.
  - reflexivity.
  - reflexivity.
  - reflexivity.
  - reflexivity.
  - reflexivity.
  - vm_compute. discriminate.
  - reflexivity.
Defined.


(** X7.  When the file cannot be read, or every line either starts with a
    space or has a trimmed text that does not start with [permissions:],
    the check fails: a [permissions:] block that is indented (a job's own
    block) never counts as the root declaration. *)
Theorem no_root_permissions_line_rejected :
  verify_root_permissions None = Some false
  /\ (forall lines,
        (forall l, In l lines ->
                   startswith l " " = true
                   \/ startswith (strip l) "permissions:" = false) ->
        verify_root_permissions (Some lines) = Some false).
Proof.
  split; [reflexivity|].
  intros lines Hno. unfold verify_root_permissions.
  assert (E : forall i, find_permissions_line i lines = -1).
  { induction lines as [|l lines IH]; intros i; [reflexivity|].
    cbn [find_permissions_line]. unfold is_permissions_line at 1.
    destruct (Hno l (or_introl eq_refl)) as [->| ->];
      rewrite ?andb_false_r; cbn [andb negb];
      apply IH; intros l' Hl'; apply Hno; now right. }
  now rewrite E.
Qed.

Lemma no_root_permissions_line_rejected_witness :
  verify_root_permissions
    (Some [line "name: ci"; line "jobs:"; line "  build:";
           line "    permissions:"; line "      contents: read"])
  = Some false.
Proof.
  apply (proj2 no_root_permissions_line_rejected).
  intros l [<-|[<-|[<-|[<-|[<-|[]]]]]];
    first [now left | now right].
Defined.

Lemma find_permissions_line_offset (lines : list string) : forall i,
  find_permissions_line i lines
  = if find_permissions_line 0 lines =? -1 then -1
    else find_permissions_line 0 lines + i.
Proof.
  induction lines as [|l lines IH]; intros i; cbn [find_permissions_line].
  - reflexivity.
  - destruct (is_permissions_line l); [reflexivity|].
    rewrite (IH (i + 1)), (IH (0 + 1)).
    destruct (find_permissions_line_spec lines 0) as [E|(Hb & _)].
    + rewrite E. reflexivity.
    + destruct (Z.eqb_spec (find_permissions_line 0 lines) (-1)); [lia|].
      destruct (Z.eqb_spec (find_permissions_line 0 lines + (0 + 1)) (-1));
        lia.
Qed.

Lemma find_permissions_line_skip (pre lines : list string) : forall i,
  (forall l, In l pre -> is_permissions_line l = false) ->
  find_permissions_line i (pre ++ lines)
  = find_permissions_line (i + Z.of_nat (List.length pre)) lines.
Proof.
  induction pre as [|l pre IH]; intros i Hno.
  - cbn. now rewrite Z.add_0_r.
  - cbn [List.app find_permissions_line].
    rewrite (Hno l (or_introl eq_refl)).
    rewrite IH by (intros l' Hl'; apply Hno; now right).
    rewrite Zlength_cons. f_equal. lia.
Qed.

Lemma index_app_shift {A} (pre xs : list A) (j : Z) :
  0 <= j < Z.of_nat (List.length xs) ->
  index (pre ++ xs) (Z.of_nat (List.length pre) + j) = index xs j.
Proof.
  intros Hj.
  destruct (index_in_range xs j Hj) as (x & -> & Hx).
  destruct (index_in_range (pre ++ xs) (Z.of_nat (List.length pre) + j))
    as (y & -> & Hy); [rewrite Zlength_app; lia|].
  rewrite nth_error_app2 in Hy by lia.
  replace (Z.to_nat (Z.of_nat (List.length pre) + j) - List.length pre)%nat
    with (Z.to_nat j) in Hy by lia.
  congruence.
Qed.

Lemma additional_permission_shift (pre lines : list string) (j : Z) :
  0 <= j ->
  additional_permission (pre ++ lines) (Z.of_nat (List.length pre) + j)
  = additional_permission lines j.
Proof.
  intros Hj. unfold additional_permission. rewrite Zlength_app.
  destruct (Z.ltb_spec j (Z.of_nat (List.length lines))) as [Hlt|Hge].
  - destruct (Z.ltb_spec (Z.of_nat (List.length pre) + j)
                (Z.of_nat (List.length pre) + Z.of_nat (List.length lines)));
      [|lia].
    now rewrite index_app_shift by lia.
  - destruct (Z.ltb_spec (Z.of_nat (List.length pre) + j)
                (Z.of_nat (List.length pre) + Z.of_nat (List.length lines)));
      [lia | reflexivity].
Qed.

(** X9.  The literal check looks at the file only from its first
    root-level [permissions] line on: lines put in front of a file change
    nothing, as long as none of them is itself such a line. *)
Theorem literal_check_ignores_preceding_lines (pre lines : list string) :
  (forall l, In l pre -> is_permissions_line l = false) ->
  verify_root_permissions (Some (pre ++ lines)%list)
  = verify_root_permissions (Some lines).
Proof.
  intros Hno. unfold verify_root_permissions.
  rewrite (find_permissions_line_skip pre lines 0 Hno), Z.add_0_l.
  rewrite (find_permissions_line_offset lines (Z.of_nat (List.length pre))).
  set (k := find_permissions_line 0 lines).
  destruct (find_permissions_line_spec lines 0) as [E|(Hb & _)];
    fold k in E || fold k in Hb.
  - rewrite E. reflexivity.
  - destruct (Z.eqb_spec k (-1)) as [|_]; [lia|].
    destruct (Z.eqb_spec (k + Z.of_nat (List.length pre)) (-1)) as [|_];
      [lia|].
    replace (k + Z.of_nat (List.length pre))
      with (Z.of_nat (List.length pre) + k) by lia.
    rewrite index_app_shift by lia.
    destruct (index lines k) as [pl|]; [|reflexivity].
    destruct (strip pl =? "permissions: read-all")%string; [reflexivity|].
    destruct (strip pl =? "permissions:")%string; [|reflexivity].
    rewrite Zlength_app.
    destruct (Z.geb_spec (k + 1) (Z.of_nat (List.length lines))) as [Hge|Hlt].
    + destruct (Z.geb_spec (Z.of_nat (List.length pre) + k + 1)
                  (Z.of_nat (List.length pre) + Z.of_nat (List.length lines)));
        [reflexivity | lia].
    + destruct (Z.geb_spec (Z.of_nat (List.length pre) + k + 1)
                  (Z.of_nat (List.length pre) + Z.of_nat (List.length lines)));
        [lia|].
      replace (Z.of_nat (List.length pre) + k + 1)
        with (Z.of_nat (List.length pre) + (k + 1)) by lia.
      rewrite index_app_shift by lia.
      replace (Z.of_nat (List.length pre) + k + 2)
        with (Z.of_nat (List.length pre) + (k + 2)) by lia.
      rewrite additional_permission_shift by lia.
      reflexivity.
Qed.

Lemma literal_check_ignores_preceding_lines_witness :
  verify_root_permissions
    (Some ([line "name: ci"; line "on: push"; line EmptyString]
             ++ [line "permissions:"; line "  contents: read"])%list)
  = verify_root_permissions
      (Some [line "permissions:"; line "  contents: read"]).
Proof.
  apply literal_check_ignores_preceding_lines.
  intros l [<-|[<-|[<-|[]]]]; reflexivity.
Defined.

(** * Further properties of the generated-file heuristic *)

Lemma append_empty_r (s : string) : (s ++ EmptyString)%string = s.
Proof. induction s as [|c s IH]; cbn; [reflexivity | now rewrite IH]. Qed.

(** A text without line feed that starts a line-terminated piece of text
    lies within that piece. *)
Lemma prefix_app_lf (u r : string) : forall m,
  has_lf m = false ->
  String.prefix m ((u ++ LF) ++ r) = String.prefix m (u ++ LF).
Proof.
  induction u as [|a u IH]; intros m Hm.
  - destruct m as [|c m']; [reflexivity|].
    cbn in Hm |- *. apply orb_false_iff in Hm. destruct Hm as [Hc _].
    destruct (ascii_dec c "010"%char) as [->|]; [|reflexivity].
    cbn in Hc. discriminate Hc.
  - destruct m as [|c m']; [reflexivity|].
    cbn [String.append String.prefix].
    destruct (ascii_dec c a); [|reflexivity].
    apply IH. cbn in Hm. apply orb_false_iff in Hm. tauto.
Qed.

Lemma contains_app_lf (m s r : string) :
  has_lf m = false -> m <> EmptyString ->
  contains m ((s ++ LF) ++ r) = contains m (s ++ LF) || contains m r.
Proof.
  intros Hm Hne. induction s as [|a s IH].
  - destruct m as [|c m']; [contradiction|].
    cbn in Hm. apply orb_false_iff in Hm. destruct Hm as [Hc _].
    change ((EmptyString ++ LF) ++ r)%string with (String "010"%char r).
    change (EmptyString ++ LF)%string with (String "010"%char EmptyString).
    change (ascii_of_N 10) with "010"%char in Hc.
    cbn [String.prefix contains].
    destruct (ascii_dec c "010"%char) as [->|];
      [cbn in Hc; discriminate Hc | reflexivity].
  - cbn [String.append].
    rewrite (contains_eq m (String a ((s ++ LF) ++ r))).
    rewrite (contains_eq m (String a (s ++ LF))).
    unfold startswith.
    pose proof (prefix_app_lf (String a s) r m Hm) as Hp.
    cbn [String.append] in Hp. rewrite Hp, IH.
    now rewrite orb_assoc.
Qed.

Lemma lower_join (ls : list string) :
  lower (join ls) = join (map lower ls).
Proof.
  unfold join. induction ls as [|l ls IH]; [reflexivity|].
  cbn [fold_right map]. now rewrite lower_app, IH.
Qed.

Lemma newline_terminated_lower (ls : list string) :
  newline_terminated ls -> newline_terminated (map lower ls).
Proof.
  induction ls as [|l [|l2 rest] IH]; cbn [map newline_terminated]; auto.
  intros [[s ->] Hrest]. split.
  - exists (lower s). now rewrite lower_app.
  - apply IH. exact Hrest.
Qed.

Lemma newline_terminated_firstn (n : nat) : forall ls,
  newline_terminated ls -> newline_terminated (firstn n ls).
Proof.
  induction n as [|n IH]; intros ls Hls; [exact I|].
  destruct ls as [|l rest]; [exact I|].
  cbn [firstn]. specialize (IH rest).
  destruct rest as [|l2 rest']; [now destruct n|].
  destruct Hls as [Hl Hrest]. specialize (IH Hrest).
  destruct (firstn n (l2 :: rest')) eqn:E; [exact I|].
  split; assumption.
Qed.

(** In a file read line by line, a text without line feed occurs in the
    concatenation only if it occurs in one of the lines. *)
Lemma contains_join (m : string) (ls : list string) :
  has_lf m = false -> m <> EmptyString ->
  newline_terminated ls ->
  contains m (join ls) = existsb (contains m) ls.
Proof.
  intros Hm Hne. induction ls as [|l [|l2 rest] IH]; intros Hls.
  - destruct m; [contradiction | reflexivity].
  - cbn [join fold_right existsb]. now rewrite append_empty_r, orb_false_r.
  - destruct Hls as [[s ->] Hrest].
    change (join ((s ++ LF)%string :: l2 :: rest))
      with (((s ++ LF) ++ join (l2 :: rest))%string).
    rewrite contains_app_lf, (IH Hrest) by assumption.
    reflexivity.
Qed.

Lemma indicators_have_no_lf (m : string) :
  In m auto_gen_indicators ->
  has_lf (lower m) = false /\ lower m <> EmptyString.
Proof.
  intros [<-|[<-|[<-|[<-|[<-|[]]]]]]; split; (reflexivity || discriminate).
Qed.

(** X10.  On a file as [readlines] returns it, the heuristic works line by
    line: the file is taken as generated exactly when one of its first ten
    lines contains, up to letter case, one of the indicators.  No indicator
    is ever found across the end of a line. *)
Theorem heuristic_line_by_line (h : host) (path : string)
    (lines : list string) :
  read_lines h path = Some lines ->
  newline_terminated lines ->
  (is_auto_generated_file h path = true
   <-> exists l m,
         In l (firstn 10 lines) /\ In m auto_gen_indicators
         /\ contains (lower m) (lower l) = true).
Proof.
  intros Hr Hnl. unfold is_auto_generated_file, has_auto_gen_indicator.
  rewrite Hr, existsb_exists.
  pose proof (newline_terminated_lower _
                (newline_terminated_firstn 10 _ Hnl)) as Hnl'.
  split.
  - intros (m & Hm & Hc).
    destruct (indicators_have_no_lf m Hm) as [Hlf Hne].
    rewrite lower_join, (contains_join _ _ Hlf Hne Hnl') in Hc.
    apply existsb_exists in Hc. destruct Hc as (x & Hx & Hc).
    apply in_map_iff in Hx. destruct Hx as (l & <- & Hl).
    exists l, m. auto.
  - intros (l & m & Hl & Hm & Hc). exists m. split; [exact Hm|].
    destruct (indicators_have_no_lf m Hm) as [Hlf Hne].
    rewrite lower_join, (contains_join _ _ Hlf Hne Hnl').
    apply existsb_exists. exists (lower l). split; [|exact Hc].
    now apply in_map.
Qed.

Lemma heuristic_line_by_line_witness :
  is_auto_generated_file sample_host "mixed.yml" = true
  <-> exists l m,
        In l (firstn 10 [line "name: release";
                         line "# This file is AutoGenerated"])
        /\ In m auto_gen_indicators
        /\ contains (lower m) (lower l) = true.
Proof.
  apply (heuristic_line_by_line sample_host "mixed.yml"
           [line "name: release"; line "# This file is AutoGenerated"]).
  - reflexivity.
  - split; [|exact I]. exists "name: release". reflexivity.
Defined.

(** * Further properties of the permissions verifier *)

Section RootDecision.

Variable py_format : value -> string.
Variable h : host.

(** X11.  Validity depends on the root value alone, never on the file or
    on the heuristic: a document is valid exactly when its root
    [permissions] value is the string [read-all], the string [write-all],
    or a non-empty mapping. *)
Theorem root_validity_iff (d : dict) (path : string) :
  fst (fst (check_root_permissions py_format h d path)) = true
  <-> (dict_get d "permissions" = Some (VStr "read-all")
       \/ dict_get d "permissions" = Some (VStr "write-all")
       \/ exists m, m <> [] /\ dict_get d "permissions" = Some (VDict m)).
Proof.
  destruct (dict_get d "permissions") as [v|] eqn:Hd.
  - destruct v as [|b|n|bits|s|s|o|mi|xs|xs|items];
      try (unfold check_root_permissions; rewrite Hd; cbn;
           split; [discriminate | intros [H|[H|(m & _ & H)]]; discriminate]).
    + unfold check_root_permissions; rewrite Hd.
      destruct (String.eqb_spec s "read-all") as [->|H1];
        [cbn; split; auto|].
      destruct (String.eqb_spec s "write-all") as [->|H2];
        [cbn; split; auto|].
      cbn. split; [discriminate|].
      intros [H|[H|(m & _ & H)]]; congruence.
    + rewrite (check_mapping py_format h d path items Hd).
      destruct items as [|[k v] [|kv2 m']].
      * cbn. split; [discriminate|].
        intros [H|[H|(m & Hm & H)]]; try discriminate.
        injection H as <-. now elim Hm.
      * assert (Hv : fst (fst
                  (match k, v with
                   | VStr k0, VStr v0 =>
                       if ((k0 =? "contents") && (v0 =? "read"))%string
                       then (true, @nil string, @nil string)
                       else (true, [],
                             if is_auto_generated_file h path
                             then generated_warnings py_format [(k, v)]
                             else breadth_warnings py_format [(k, v)])
                   | _, _ =>
                       (true, [],
                        if is_auto_generated_file h path
                        then generated_warnings py_format [(k, v)]
                        else breadth_warnings py_format [(k, v)])
                   end)) = true).
        { destruct k, v; try reflexivity.
          destruct ((_ =? _) && (_ =? _))%string; reflexivity. }
        destruct k, v; cbn in Hv |- *;
          (split; [intros _; right; right; eexists; split;
                   [|reflexivity]; discriminate
                  | intros _; try reflexivity; exact Hv]).
      * split; [intros _; right; right; eexists; split;
                [|reflexivity]; discriminate|].
        intros _. destruct k, v; reflexivity.
  - unfold check_root_permissions; rewrite Hd. cbn.
    split; [discriminate | intros [H|[H|(m & _ & H)]]; discriminate].
Qed.

(** X12.  A document passes without any warning exactly when its root
    [permissions] value is the string [read-all] or the one-entry mapping
    [contents: read]. *)
Theorem root_clean_pass_iff (d : dict) (path : string) :
  check_root_permissions py_format h d path = (true, [], [])
  <-> (dict_get d "permissions" = Some (VStr "read-all")
       \/ dict_get d "permissions" = Some (VDict contents_read)).
Proof.
  destruct (dict_get d "permissions") as [v|] eqn:Hd.
  - destruct v as [|b|n|bits|s|s|o|mi|xs|xs|items];
      try (unfold check_root_permissions; rewrite Hd;
           split; [discriminate | intros [H|H]; congruence]).
    + unfold check_root_permissions; rewrite Hd.
      destruct (String.eqb_spec s "read-all") as [->|H1]; [split; auto|].
      destruct (String.eqb_spec s "write-all") as [->|H2];
        (split; [discriminate | intros [H|H]; congruence]).
    + rewrite (check_mapping py_format h d path items Hd).
      unfold contents_read, generated_warnings, breadth_warnings.
      destruct items as [|[k v] [|kv2 m']].
      * split; [discriminate | intros [H|H]; congruence].
      * destruct k, v;
          try (destruct (is_auto_generated_file h path);
               (split; [discriminate | intros [H|H]; congruence])).
        destruct (String.eqb_spec s "contents") as [->|Hk];
          destruct (String.eqb_spec s0 "read") as [->|Hv]; cbn [andb];
          try (split; [auto | reflexivity]);
          destruct (is_auto_generated_file h path);
          (split; [discriminate | intros [H|H]; congruence]).
      * destruct k, v; destruct (is_auto_generated_file h path);
          (split; [discriminate | intros [H|H]; congruence]).
  - unfold check_root_permissions; rewrite Hd.
    split; [discriminate | intros [H|H]; congruence].
Qed.

End RootDecision.

(** ** Job-level analysis *)

Lemma analyze_jobs_in (jobs : dict) (n : value) (info : job_info) :
  In (n, info) (analyze_jobs jobs)
  <-> exists job_data, In (n, VDict job_data) jobs
                       /\ info = analyze_job job_data.
Proof.
  induction jobs as [|[k v] jobs IH].
  - cbn. split; [tauto | intros (jd & [] & _)].
  - assert (Hskip : (forall jd, v <> VDict jd) ->
              (In (n, info) (analyze_jobs jobs)
               <-> exists job_data,
                     In (n, VDict job_data) ((k, v) :: jobs)
                     /\ info = analyze_job job_data)).
    { intros Hv. rewrite IH. split.
      - intros (jd & Hin & E). exists jd. split; [now right | exact E].
      - intros (jd & [Hin|Hin] & E); [|eauto].
        injection Hin as _ Hv'. now elim (Hv jd). }
    destruct v as [|b|z|bits|s|s|o|mi|xs|xs|jd0]; cbn [analyze_jobs];
      try (apply Hskip; intros jd; discriminate).
    cbn [In]. rewrite IH. split.
    + intros [E|(jd & Hin & E)].
      * injection E as <- <-. exists jd0. auto.
      * exists jd. auto.
    + intros (jd & [Hin|Hin] & E).
      * injection Hin as <- <-. left. now rewrite E.
      * right. eauto.
Qed.

(** X13.  The job analysis has exactly one entry for each job whose value
    is a mapping, under the job's name, and none for any other job; with no
    [jobs] key, or a [jobs] value that is not a mapping, it is empty. *)
Theorem job_analysis_entries (d : dict) :
  (dict_get d "jobs" = None -> analyze_job_permissions d = [])
  /\ (forall v, dict_get d "jobs" = Some v ->
                (forall jobs, v <> VDict jobs) ->
                analyze_job_permissions d = [])
  /\ (forall jobs,
        dict_get d "jobs" = Some (VDict jobs) ->
        (forall n info,
            In (n, info) (analyze_job_permissions d)
            <-> exists job_data, In (n, VDict job_data) jobs
                                 /\ info = analyze_job job_data)
        /\ (List.length (analyze_job_permissions d) <= List.length jobs)%nat).
Proof.
  unfold analyze_job_permissions. split; [|split].
  - intros ->. reflexivity.
  - intros v -> Hv. destruct v; try reflexivity. now elim (Hv items).
  - intros jobs ->. split; [intros n info; apply analyze_jobs_in|].
    induction jobs as [|[k v] jobs IH]; [cbn; lia|].
    destruct v; cbn [analyze_jobs List.length]; lia.
Qed.

Lemma job_analysis_entries_witness :
  analyze_job_permissions [(VStr "name", VStr "ci")] = []
  /\ analyze_job_permissions [(VStr "jobs", VList [VStr "build"])] = []
  /\ (In (VStr "build",
          analyze_job [(VStr "steps", VList [])])
        (analyze_job_permissions
           [(VStr "jobs",
             VDict [(VStr "build", VDict [(VStr "steps", VList [])]);
                    (VStr "broken", VNone)])])).
Proof.
  split; [|split].
  - apply (proj1 (job_analysis_entries [(VStr "name", VStr "ci")])).
    reflexivity.
  - apply (proj1 (proj2 (job_analysis_entries
                           [(VStr "jobs", VList [VStr "build"])]))
             (VList [VStr "build"])).
    + reflexivity.
    + intros jobs. discriminate.
  - apply (proj1 (proj2 (proj2 (job_analysis_entries
             [(VStr "jobs",
               VDict [(VStr "build", VDict [(VStr "steps", VList [])]);
                      (VStr "broken", VNone)])]))
             [(VStr "build", VDict [(VStr "steps", VList [])]);
              (VStr "broken", VNone)] eq_refl)).
    exists [(VStr "steps", VList [])]. split; [now left | reflexivity].
Defined.

(** ** One file, and the run over all files *)

Lemma forallb_false_exists {A} (f : A -> bool) (xs : list A) :
  forallb f xs = false <-> exists x, In x xs /\ f x = false.
Proof.
  induction xs as [|x xs IH]; cbn.
  - split; [discriminate | intros (x & [] & _)].
  - rewrite andb_false_iff, IH. split.
    + intros [H|(y & Hy & H)]; eauto.
    + intros (y & [<-|Hy] & H); eauto.
Qed.

Section RunFacts.

Variable py_format : value -> string.
Variable h : host.

(** X15.  The result for one file: it carries the path and the heuristic's
    answer; it is valid exactly when it has no error; an invalid result has
    exactly one error and no warning; and a file that does not load as a
    mapping is invalid with an empty job analysis. *)
Theorem verify_workflow_file_result (path : string) :
  file_path (verify_workflow_file py_format h path) = path
  /\ is_auto_generated (verify_workflow_file py_format h path)
     = is_auto_generated_file h path
  /\ (is_valid (verify_workflow_file py_format h path) = true
      <-> errors (verify_workflow_file py_format h path) = [])
  /\ (is_valid (verify_workflow_file py_format h path) = false ->
      (exists e, errors (verify_workflow_file py_format h path) = [e])
      /\ warnings (verify_workflow_file py_format h path) = [])
  /\ ((forall workflow_data, safe_load h path <> Loaded (VDict workflow_data)) ->
      is_valid (verify_workflow_file py_format h path) = false
      /\ job_analysis (verify_workflow_file py_format h path) = []).
Proof.
  unfold verify_workflow_file, load_yaml_file.
  destruct (safe_load h path) as [content|e|e]; cbn;
    try (repeat split; try discriminate; eauto; congruence).
  destruct content as [|b|n|bits|s|s|o|mi|xs|xs|wd]; cbn;
    try (repeat split; try discriminate; eauto; congruence).
  destruct (check_shape py_format h wd path) as [[w ->]|[e ->]]; cbn;
    repeat split; try discriminate; eauto;
    try (intros Hx; now elim (Hx wd));
    match goal with
    | Hx : forall _, _ <> _ |- _ => now elim (Hx wd)
    end.
Qed.

End RunFacts.

Lemma verify_workflow_file_result_witness :
  is_valid (verify_workflow_file sample_format sample_host "broken.yml") = false
  /\ job_analysis (verify_workflow_file sample_format sample_host "broken.yml")
     = [].
Proof.
  apply (proj2 (proj2 (proj2 (proj2
           (verify_workflow_file_result sample_format sample_host
              "broken.yml"))))).
  intros wd. vm_compute. discriminate.
Defined.

Section Counters.

Variable py_format : value -> string.
Variable h : host.

(** The three ways a file is counted. *)
Definition is_errored (path : string) : bool :=
  negb (is_valid (verify_workflow_file py_format h path)).

Definition is_warned (path : string) : bool :=
  is_valid (verify_workflow_file py_format h path)
  && negb (len (warnings (verify_workflow_file py_format h path)) =? 0).

Definition is_passed (path : string) : bool :=
  is_valid (verify_workflow_file py_format h path)
  && (len (warnings (verify_workflow_file py_format h path)) =? 0).

Lemma len_filter_cons {A} (p : A -> bool) (x : A) (xs : list A) :
  len (filter p (x :: xs)) = len (filter p xs) + (if p x then 1 else 0).
Proof. cbn [filter]. destruct (p x); [rewrite len_cons|]; lia. Qed.

Lemma verify_loop_counts (q : bool) (files : list string) :
  forall s rs s' rs',
    verify_loop py_format h q files s rs = inl (s', rs') ->
    rs' = (rs ++ map (verify_workflow_file py_format h) files)%list
    /\ total_files s' = total_files s + len files
    /\ files_with_errors s'
       = files_with_errors s + len (filter is_errored files)
    /\ files_with_warnings s'
       = files_with_warnings s + len (filter is_warned files)
    /\ files_passed s' = files_passed s + len (filter is_passed files).
Proof.
  induction files as [|f files IH]; intros s rs s' rs'; cbn [verify_loop].
  - intros [= <- <-]. rewrite app_nil_r. cbn. repeat split; lia.
  - destruct (print_file_result q _ _) as [s2|e] eqn:Ep; [|discriminate].
    intros Hloop. apply print_file_result_inl in Ep.
    destruct (IH _ _ _ _ Hloop) as (Hrs & Ht & He & Hw & Hp).
    rewrite !len_filter_cons, len_cons. cbn [map].
    rewrite <- app_assoc in Hrs. cbn [List.app] in Hrs.
    split; [exact Hrs|].
    rewrite Ht, He, Hw, Hp, Ep. unfold count_result, is_errored, is_warned,
      is_passed.
    destruct (is_valid (verify_workflow_file py_format h f));
      [destruct (len (warnings (verify_workflow_file py_format h f)) =? 0)|];
      cbn; repeat split; lia.
Qed.

(** X16.  When the loop over the files finishes, the results are those of
    the files, in order; [total_files] is the number of files; each file is
    counted in exactly one of the three other counters (errored when not
    valid, warned when valid with a warning, passed otherwise); so the
    three add up to the total. *)
Theorem run_counters (q : bool) (files : list string) (s : stats)
    (rs : list result) :
  verify_loop py_format h q files stats_init [] = inl (s, rs) ->
  rs = map (verify_workflow_file py_format h) files
  /\ total_files s = len files
  /\ files_with_errors s = len (filter is_errored files)
  /\ files_with_warnings s = len (filter is_warned files)
  /\ files_passed s = len (filter is_passed files)
  /\ total_files s
     = files_passed s + files_with_warnings s + files_with_errors s.
Proof.
  intros Hloop.
  destruct (verify_loop_counts _ _ _ _ _ _ Hloop) as (Hrs & Ht & He & Hw & Hp).
  cbn in Hrs, Ht, He, Hw, Hp.
  repeat (split; [assumption|]).
  rewrite Ht, He, Hw, Hp. clear.
  induction files as [|f files IH]; [reflexivity|].
  rewrite !len_filter_cons, len_cons, IH.
  unfold is_errored, is_warned, is_passed.
  destruct (is_valid (verify_workflow_file py_format h f));
    [destruct (len (warnings (verify_workflow_file py_format h f)) =? 0)|];
    cbn; lia.
Qed.

(** The quiet loop never raises, and agrees with the printing loop
    whenever that one finishes. *)
Lemma verify_loop_quiet_total (files : list string) : forall s rs,
  exists x, verify_loop py_format h true files s rs = inl x.
Proof.
  induction files as [|f files IH]; intros s rs; cbn [verify_loop].
  - eauto.
  - unfold print_file_result. apply IH.
Qed.

Lemma verify_loop_quiet_agrees (files : list string) : forall s rs x,
  verify_loop py_format h false files s rs = inl x ->
  verify_loop py_format h true files s rs = inl x.
Proof.
  induction files as [|f files IH]; intros s rs x; cbn [verify_loop].
  - auto.
  - destruct (print_file_result false _ _) as [s2|e] eqn:Ep; [|discriminate].
    apply print_file_result_inl in Ep. subst s2.
    unfold print_file_result at 1. apply IH.
Qed.

(** X17.  The [TypeError] of joining job names belongs to the per-file
    report alone: a quiet run never raises it, and whenever the printing
    run does not raise it either, both runs compute the same summary and
    the same exit status.  (What [print] itself may raise is outside the
    model, for both runs alike.) *)
Theorem quiet_changes_printing_only (files : list string) :
  verify_all_workflows py_format h true files <> inr TypeError
  /\ (verify_all_workflows py_format h false files <> inr TypeError ->
      verify_all_workflows py_format h true files
      = verify_all_workflows py_format h false files
      /\ forall directory_exists,
           main py_format h directory_exists true files
           = main py_format h directory_exists false files).
Proof.
  split.
  - unfold verify_all_workflows.
    destruct (len files =? 0); [discriminate|].
    destruct (verify_loop_quiet_total files stats_init []) as [[s rs] ->].
    destruct (files_with_errors s >? 0); discriminate.
  - intros Hrun.
    assert (E : verify_all_workflows py_format h true files
                = verify_all_workflows py_format h false files).
    { unfold verify_all_workflows in *.
      destruct (len files =? 0); [reflexivity|].
      destruct (verify_loop py_format h false files stats_init [])
        as [x|e] eqn:El.
      - now rewrite (verify_loop_quiet_agrees _ _ _ _ El).
      - rewrite (verify_loop_inr _ _ _ _ _ _ _ El) in Hrun. now elim Hrun. }
    split; [exact E|]. intros de. unfold main. now rewrite E.
Qed.

(** X18.  Once the command line has been parsed (lines 331-354), the exit
    status is 0 or 1, and status 0 means that the directory exists and that
    no file's result contains an error. *)
Theorem exit_status_zero_means_clean (directory_exists quiet : bool)
    (files : list string) :
  (main py_format h directory_exists quiet files = 0
   \/ main py_format h directory_exists quiet files = 1)
  /\ (main py_format h directory_exists quiet files = 0 ->
      directory_exists = true
      /\ forall f, In f files ->
                   errors (verify_workflow_file py_format h f) = []).
Proof.
  unfold main, verify_all_workflows.
  destruct directory_exists; cbn [negb]; [|split; [now right | discriminate]].
  destruct (len files =? 0) eqn:Elen.
  - split; [now left|]. intros _. split; [reflexivity|].
    destruct files; [intros f []|].
    rewrite len_cons in Elen. pose proof (len_nonneg files).
    apply Z.eqb_eq in Elen. lia.
  - destruct (verify_loop py_format h quiet files stats_init [])
      as [[s rs]|e] eqn:El.
    + destruct (verify_loop_errors _ _ _ _ _ _ _ _ El) as [_ Hiff].
      cbn [files_with_errors stats_init] in Hiff.
      destruct (Z.gtb_spec (files_with_errors s) 0) as [Hpos|Hnone].
      * split; [now right | discriminate].
      * split; [now left|]. intros _. split; [reflexivity|].
        intros f Hf.
        destruct (errors (verify_workflow_file py_format h f)) eqn:Ee;
          [reflexivity|].
        assert (0 < files_with_errors s); [|lia].
        apply Hiff. exists f. split; [exact Hf|].
        apply verify_workflow_file_invalid_iff. congruence.
    + rewrite (verify_loop_inr _ _ _ _ _ _ _ El).
      split; [now right | discriminate].
Qed.

(** X19.  A printing run raises exactly when some file has a job that
    declares permissions and whose name is not a string: joining the names
    of such jobs for the report is the one place where the run can fail. *)
Theorem printing_raises_iff (files : list string) :
  verify_all_workflows py_format h false files = inr TypeError
  <-> exists f n info,
        In f files
        /\ In (n, info) (job_analysis (verify_workflow_file py_format h f))
        /\ has_permissions info = true
        /\ is_str n = false.
Proof.
  assert (Hprint : forall r s,
            print_file_result false r s = inr TypeError
            <-> exists n info, In (n, info) (job_analysis r)
                               /\ has_permissions info = true
                               /\ is_str n = false).
  { intros r s. unfold print_file_result.
    destruct (forallb is_str _) eqn:Ef.
    - split; [discriminate|]. intros (n & info & Hin & Hp & Hs).
      rewrite forallb_forall in Ef.
      rewrite (Ef n) in Hs; [discriminate|].
      apply in_map_iff. exists (n, info). split; [reflexivity|].
      apply filter_In. auto.
    - split; [|reflexivity]. intros _.
      apply forallb_false_exists in Ef. destruct Ef as (n & Hn & Hs).
      apply in_map_iff in Hn. destruct Hn as ([n' info] & <- & Hin).
      apply filter_In in Hin. destruct Hin as [Hin Hp].
      exists n', info. auto. }
  assert (Hloop : forall fs s rs,
            verify_loop py_format h false fs s rs = inr TypeError
            <-> exists f n info,
                  In f fs
                  /\ In (n, info)
                       (job_analysis (verify_workflow_file py_format h f))
                  /\ has_permissions info = true
                  /\ is_str n = false).
  { induction fs as [|f fs IH]; intros s rs; cbn [verify_loop].
    - split; [discriminate | intros (f & _ & _ & [] & _)].
    - destruct (print_file_result false _ _) as [s2|e] eqn:Ep.
      + rewrite IH. split.
        * intros (g & n & info & Hg & Hrest). exists g, n, info.
          split; [now right | exact Hrest].
        * intros (g & n & info & [<-|Hg] & Hin & Hp & Hs).
          -- assert (Hr : print_file_result false
                            (verify_workflow_file py_format h f)
                            (mk_stats (total_files s + 1) (files_with_errors s)
                               (files_with_warnings s) (files_passed s))
                          = inr TypeError)
               by (apply Hprint; eauto).
             congruence.
          -- exists g, n, info. auto.
      + assert (e = TypeError) by exact (print_file_result_inr _ _ _ _ Ep).
        subst e. split; [|reflexivity]. intros _.
        apply Hprint in Ep. destruct Ep as (n & info & Hrest).
        exists f, n, info. split; [now left | exact Hrest]. }
  unfold verify_all_workflows.
  destruct files as [|f0 files'].
  - cbn. split; [discriminate | intros (f & _ & _ & [] & _)].
  - replace (len (f0 :: files') =? 0) with false
      by (rewrite len_cons; pose proof (len_nonneg files');
          symmetry; apply Z.eqb_neq; lia).
    rewrite <- Hloop with (s := stats_init) (rs := []).
    destruct (verify_loop py_format h false (f0 :: files') stats_init [])
      as [[s rs]|e]; [|split; intros [= ->]; reflexivity].
    destruct (files_with_errors s >? 0);
      split; discriminate.
Qed.

End Counters.

Lemma run_counters_witness :
  map (verify_workflow_file sample_format sample_host)
    ["plain.yml"; "wide.yml"; "broken.yml"]
  = map (verify_workflow_file sample_format sample_host)
      ["plain.yml"; "wide.yml"; "broken.yml"]
  /\ total_files (mk_stats 3 1 1 1) = len ["plain.yml"; "wide.yml"; "broken.yml"]
  /\ files_with_errors (mk_stats 3 1 1 1)
     = len (filter (is_errored sample_format sample_host)
              ["plain.yml"; "wide.yml"; "broken.yml"])
  /\ files_with_warnings (mk_stats 3 1 1 1)
     = len (filter (is_warned sample_format sample_host)
              ["plain.yml"; "wide.yml"; "broken.yml"])
  /\ files_passed (mk_stats 3 1 1 1)
     = len (filter (is_passed sample_format sample_host)
              ["plain.yml"; "wide.yml"; "broken.yml"])
  /\ total_files (mk_stats 3 1 1 1)
     = files_passed (mk_stats 3 1 1 1) + files_with_warnings (mk_stats 3 1 1 1)
       + files_with_errors (mk_stats 3 1 1 1).
Proof.
  apply (run_counters sample_format sample_host false
           ["plain.yml"; "wide.yml"; "broken.yml"] (mk_stats 3 1 1 1)
           (map (verify_workflow_file sample_format sample_host)
              ["plain.yml"; "wide.yml"; "broken.yml"])).
  vm_compute. reflexivity.
Defined.

Lemma quiet_changes_printing_only_witness :
  verify_all_workflows sample_format sample_host true ["plain.yml"; "wide.yml"]
  = verify_all_workflows sample_format sample_host false
      ["plain.yml"; "wide.yml"]
  /\ forall directory_exists,
       main sample_format sample_host directory_exists true
         ["plain.yml"; "wide.yml"]
       = main sample_format sample_host directory_exists false
           ["plain.yml"; "wide.yml"].
Proof.
  apply (proj2 (quiet_changes_printing_only sample_format sample_host
                  ["plain.yml"; "wide.yml"])).
  vm_compute. discriminate.
Defined.

Lemma exit_status_zero_means_clean_witness :
  true = true
  /\ forall f, In f ["plain.yml"; "wide.yml"] ->
               errors (verify_workflow_file sample_format sample_host f) = [].
Proof.
  apply (proj2 (exit_status_zero_means_clean sample_format sample_host
                  true false ["plain.yml"; "wide.yml"])).
  vm_compute. reflexivity.
Defined.

(** * The verdict for a located trigger block *)

Lemma find_next_root_gap (gap : list string) (b : string)
    (rest : list string) : forall j nbl,
  (forall l, In l gap -> is_root_level l = false) ->
  is_root_level b = true ->
  find_next_root j (gap ++ b :: rest) nbl = j + Z.of_nat (List.length gap).
Proof.
  induction gap as [|l gap IH]; intros j nbl Hgap Hb.
  - cbn. rewrite Hb. lia.
  - cbn [List.app find_next_root]. rewrite (Hgap l (or_introl eq_refl)).
    rewrite IH by (auto; intros l' Hl'; apply Hgap; now right).
    rewrite Zlength_cons. lia.
Qed.

Lemma single_line_state (pre : list string) (t : string)
    (rest : list string) :
  (forall l, In l pre -> is_on_line l = false) ->
  is_on_line t = true ->
  strip t <> "on:" ->
  scan_lines (pre ++ t :: rest)
  = mk_scan (Z.of_nat (List.length pre)) false
      (find_next_root (Z.of_nat (List.length pre) + 1) rest (-1))
      (Z.of_nat (List.length pre)).
Proof.
  intros Hpre Hon Hs. unfold scan_lines.
  rewrite (scan_skip pre 0 _ scan_init eq_refl Hpre).
  cbn [scan Z.add]. rewrite Hon.
  destruct (String.eqb_spec (strip t) "on:"); [contradiction|].
  reflexivity.
Qed.

Lemma multi_line_state (pre : list string) (t : string) (body : list string)
    (c : string) (blanks : list string) (b : string) (rest : list string) :
  (forall l, In l pre -> is_on_line l = false) ->
  is_on_line t = true ->
  strip t = "on:" ->
  (forall l, In l body -> is_root_level l = false) ->
  is_indented_content c = true ->
  (forall l, In l blanks -> strip l = EmptyString) ->
  is_root_level b = true ->
  is_on_line b = false ->
  scan_lines (pre ++ t :: body ++ c :: blanks ++ b :: rest)
  = mk_scan
      (Z.of_nat (List.length pre) + 1 + Z.of_nat (List.length body))
      true
      (Z.of_nat (List.length pre) + 1 + Z.of_nat (List.length body) + 1
       + Z.of_nat (List.length blanks))
      (Z.of_nat (List.length pre)).
Proof.
  intros Hpre Hon Hs Hbody Hc Hblanks Hb Hbon.
  assert (Hcs : startswith c " " = true).
  { unfold is_indented_content in Hc. now apply andb_true_iff in Hc. }
  assert (Hbs : startswith b " " = false).
  { unfold is_root_level in Hb. apply andb_true_iff in Hb.
    destruct Hb as [_ Hb]. now apply negb_true_iff in Hb. }
  assert (Hcon : is_on_line c = false).
  { unfold is_on_line. rewrite Hcs. apply andb_false_r. }
  assert (Hbc : is_indented_content b = false).
  { unfold is_indented_content. rewrite Hbs. apply andb_false_r. }
  unfold scan_lines.
  rewrite (scan_skip pre 0 _ scan_init eq_refl Hpre).
  cbn [scan Z.add]. rewrite Hon, Hs. cbn [String.eqb Ascii.eqb Bool.eqb].
  destruct (scan_block body (Z.of_nat (List.length pre) + 1)
              (c :: blanks ++ b :: rest)
              (mk_scan (on_block_end scan_init) true
                 (next_block_line scan_init) (Z.of_nat (List.length pre)))
              eq_refl Hbody) as [e ->].
  cbn [scan next_block_line on_line in_on_block scan_init].
  rewrite Hcon, Hc.
  rewrite (scan_blanks blanks _ (b :: rest) _ Hblanks).
  cbn [scan in_on_block on_block_end next_block_line on_line].
  rewrite Hbon, Hbc, Hb. reflexivity.
Qed.

Lemma verdict_from_state (lines : list string) (e n ol : Z) (io : bool)
    (b : string) :
  scan_lines lines = mk_scan e io n ol ->
  0 <= e < n ->
  n < Z.of_nat (List.length lines) ->
  index lines n = Some b ->
  exists following,
    index lines (e + 1) = Some following
    /\ analyze_yaml_formatting (Some lines)
       = Verdict e n (strip b)
           (if (strip following =? EmptyString)%string then RuleB else RuleA).
Proof.
  intros Hs He Hn Hb.
  destruct (index_in_range lines (e + 1) ltac:(lia)) as (f & Hf & _).
  exists f. split; [exact Hf|].
  rewrite (analyze_of_state lines e n ol io b Hs ltac:(lia) Hb).
  unfold has_blank_line. rewrite Hf.
  destruct (Z.ltb_spec (e + 1) (Z.of_nat (List.length lines))); [|lia].
  reflexivity.
Qed.

(** C5, as amended.  For every text in which a trigger block with its end
    and the following root-level boundary line can be located
    ([trigger_layout]: a single-line trigger followed later by a root-level
    line, or [on:] with at least one indented content line before the next
    root-level line), the analyzer reports exactly that block end and that
    boundary, and its verdict is rule B when the single line right after
    the block end is blank after trimming, and rule A otherwise. *)
Theorem verdict_of_located_block (lines : list string) (e n : Z) :
  trigger_layout lines e n ->
  exists following boundary,
    index lines (e + 1) = Some following
    /\ index lines n = Some boundary
    /\ is_root_level boundary = true
    /\ e < n
    /\ analyze_yaml_formatting (Some lines)
       = Verdict e n (strip boundary)
           (if (strip following =? EmptyString)%string then RuleB else RuleA).
Proof.
  intros [pre t gap b rest Hpre Hon Hs Hgap Hb
         |pre t body c blanks b rest Hpre Hon Hs Hbody Hc Hblanks Hb Hbon].
  - pose proof (single_line_state pre t (gap ++ b :: rest) Hpre Hon Hs)
      as Hstate.
    rewrite (find_next_root_gap gap b rest _ _ Hgap Hb) in Hstate.
    assert (Hib : index (pre ++ t :: gap ++ b :: rest)
                    (Z.of_nat (List.length pre) + 1 + Z.of_nat (List.length gap))
                  = Some b).
    { replace (pre ++ t :: gap ++ b :: rest)%list
        with ((pre ++ t :: gap) ++ b :: rest)%list
        by (rewrite <- app_assoc; reflexivity).
      replace (Z.of_nat (List.length pre) + 1 + Z.of_nat (List.length gap))
        with (Z.of_nat (List.length (pre ++ t :: gap)))
        by (rewrite Zlength_app, Zlength_cons; lia).
      apply index_middle. }
    destruct (verdict_from_state _ _ _ _ _ b Hstate) as (f & Hf & Hv);
      [lia | rewrite Zlength_app, Zlength_cons, Zlength_app, Zlength_cons; lia
       | exact Hib |].
    exists f, b. repeat (split; [first [assumption | lia]|]). exact Hv.
  - pose proof (multi_line_state pre t body c blanks b rest
                  Hpre Hon Hs Hbody Hc Hblanks Hb Hbon) as Hstate.
    assert (Hib : index (pre ++ t :: body ++ c :: blanks ++ b :: rest)
                    (Z.of_nat (List.length pre) + 1
                     + Z.of_nat (List.length body) + 1
                     + Z.of_nat (List.length blanks))
                  = Some b).
    { replace (pre ++ t :: body ++ c :: blanks ++ b :: rest)%list
        with ((pre ++ t :: body ++ c :: blanks) ++ b :: rest)%list
        by (rewrite <- app_assoc; cbn [List.app]; rewrite <- app_assoc;
            reflexivity).
      replace (Z.of_nat (List.length pre) + 1
               + Z.of_nat (List.length body) + 1
               + Z.of_nat (List.length blanks))
        with (Z.of_nat (List.length (pre ++ t :: body ++ c :: blanks)))
        by (rewrite Zlength_app, Zlength_cons, Zlength_app, Zlength_cons;
            lia).
      apply index_middle. }
    destruct (verdict_from_state _ _ _ _ _ b Hstate) as (f & Hf & Hv);
      [lia
      | rewrite Zlength_app, Zlength_cons, Zlength_app, Zlength_cons,
          Zlength_app, Zlength_cons; lia
      | exact Hib |].
    exists f, b. repeat (split; [first [assumption | lia]|]). exact Hv.
Qed.

Lemma verdict_of_located_block_witness :
  (exists following boundary,
     index [line "name: ci"; line "on:"; line "  push:"; line EmptyString;
            line "jobs:"] (2 + 1) = Some following
     /\ index [line "name: ci"; line "on:"; line "  push:"; line EmptyString;
               line "jobs:"] 4 = Some boundary
     /\ is_root_level boundary = true
     /\ 2 < 4
     /\ analyze_yaml_formatting
          (Some [line "name: ci"; line "on:"; line "  push:";
                 line EmptyString; line "jobs:"])
        = Verdict 2 4 (strip boundary)
            (if (strip following =? EmptyString)%string
             then RuleB else RuleA))
  /\ (exists following boundary,
        index [line "on: push"; line "permissions: read-all"; line "jobs:"]
          (0 + 1) = Some following
        /\ index [line "on: push"; line "permissions: read-all"; line "jobs:"]
             1 = Some boundary
        /\ is_root_level boundary = true
        /\ 0 < 1
        /\ analyze_yaml_formatting
             (Some [line "on: push"; line "permissions: read-all";
                    line "jobs:"])
           = Verdict 0 1 (strip boundary)
               (if (strip following =? EmptyString)%string
                then RuleB else RuleA)).
Proof.
  split.
  - apply (verdict_of_located_block
             [line "name: ci"; line "on:"; line "  push:"; line EmptyString;
              line "jobs:"] 2 4).
    apply (multi_line_layout [line "name: ci"] (line "on:") []
             (line "  push:") [line EmptyString] (line "jobs:") []).
    + intros l [<-|[]]. reflexivity.
    + reflexivity.
    + reflexivity.
    + intros l [].
    + reflexivity.
    + intros l [<-|[]]. reflexivity.
    + reflexivity.
    + reflexivity.
  - apply (verdict_of_located_block
             [line "on: push"; line "permissions: read-all"; line "jobs:"]
             0 1).
    apply (single_line_layout [] (line "on: push") []
             (line "permissions: read-all") [line "jobs:"]).
    + intros l [].
    + reflexivity.
    + vm_compute. discriminate.
    + intros l [].
    + reflexivity.
Defined.

(** C5, as stated, on the code.  In both texts the analyzer finds the
    trigger line (it sets [on_line] and prints "Found multiline 'on:'
    block") and the root-level line after it (it sets [next_block_line]),
    and the line after the trigger is there to be tested; still it gives no
    verdict, because [on_block_end] is only set by an indented content
    line. *)
Lemma located_without_verdict :
  is_on_line (line "on:") = true
  /\ is_root_level (line "jobs:") = true
  /\ scan_lines [line "on:"; line "jobs:"] = mk_scan (-1) true 1 0
  /\ analyze_yaml_formatting (Some [line "on:"; line "jobs:"])
     = StructureNotFound
  /\ scan_lines [line "on:"; line EmptyString; line "jobs:"]
     = mk_scan (-1) true 2 0
  /\ analyze_yaml_formatting
       (Some [line "on:"; line EmptyString; line "jobs:"])
     = StructureNotFound
  /\ verdict_of StructureNotFound = None.
Proof. vm_compute. repeat split. Qed.
